(** * Urbanlytic backend: the Ingestor, the Processor and the Writer

    A shallow embedding of the three Express handlers of the repository

      - Data Ingestor          ([app.post('/ingest')], raw store + topic),
      - User Report Processor  ([app.post('/')], topic to topic),
      - Firestore Event Writer ([app.post('/')], topic to store),

    and of the [process.env.PORT || 8080] line they share.

    JavaScript values are an inductive type; a JavaScript object is a finite
    map from property names to values.  A string is a Rocq [string], one
    character standing for one UTF-16 code unit: the handlers only take
    lengths and prefixes of the strings they receive.  A number is a
    [spec_float]; the handlers only test numbers for truthiness and with
    [typeof].  The document store and the topics are explicit state; the
    outcome of each call to them (the generated identifier, an acknowledged
    message id, a rejection) is read from an environment, as is the clock.
    An exception is a value of the [result] type; an exception that escapes
    the handler's [try] blocks makes the handler's promise reject.
    [console.log], [console.warn] and [console.error] are not modelled. *)

From Stdlib Require Import ZArith Ascii String Floats.SpecFloat.
From stdpp Require Import base gmap strings list fin_maps pretty.

Open Scope string_scope.

(** ** JavaScript values *)

Definition number := spec_float.

#[warnings="-register-all"]
Inductive jsValue : Type :=
| JUndefined
| JNull
| JBool (b : bool)
| JNum (x : number)
| JStr (s : string)
| JArr (l : list jsValue)
| JObj (o : gmap string jsValue)
| JServerTimestamp                      (* admin.firestore.FieldValue.serverTimestamp() *)
| JGeoPoint (latitude longitude : number). (* an admin.firestore.GeoPoint *)

Abbreviation jsObject := (gmap string jsValue).

Inductive jsError : Type :=
| TypeError (message : string)
| SyntaxError (message : string)
| Error (message : string).

Definition error_message (e : jsError) : string :=
  match e with
  | TypeError m | SyntaxError m | Error m => m
  end.

(** A computation that returns or throws. *)
Inductive result (A : Type) : Type :=
| Ok (a : A)
| Throw (e : jsError).
Arguments Ok {A} a.
Arguments Throw {A} e.

#[global] Instance result_ret : MRet result := λ A a, Ok a.
#[global] Instance result_bind : MBind result := λ A B k r,
  match r with
  | Ok a => k a
  | Throw e => Throw e
  end.

(** ** Truthiness, [typeof], [||] *)

Definition number_truthy (x : number) : bool :=
  match x with
  | S754_zero _ | S754_nan => false
  | _ => true
  end.

(** ToBoolean. *)
Definition truthy (v : jsValue) : bool :=
  match v with
  | JUndefined | JNull => false
  | JBool b => b
  | JNum x => number_truthy x
  | JStr s => negb (String.eqb s "")
  | JArr _ | JObj _ | JServerTimestamp | JGeoPoint _ _ => true
  end.

(** [a || b] on values that are already evaluated. *)
Definition js_or (a b : jsValue) : jsValue := if truthy a then a else b.

(** [typeof v === 'number'] *)
Definition is_number (v : jsValue) : bool :=
  match v with JNum _ => true | _ => false end.

(** ** Properties *)

Definition index_props (l : list jsValue) : jsObject :=
  list_to_map (imap (λ i x, (pretty i, x)) l).

(** The one-unit strings [s[0]], [s[1]], ... of a string. *)
Fixpoint units (s : string) : list jsValue :=
  match s with
  | EmptyString => []
  | String a s' => JStr (String a EmptyString) :: units s'
  end.

(** The own enumerable string-keyed properties of a value that is not
    [null] or [undefined]: what [{...v}] copies.  Spreading [null] or
    [undefined] copies nothing. *)
Definition ownProps (v : jsValue) : jsObject :=
  match v with
  | JObj o => o
  | JArr l => index_props l
  | JStr s => index_props (units s)
  | _ => ∅
  end.

Definition nullish (v : jsValue) : bool :=
  match v with JUndefined | JNull => true | _ => false end.

(** [v.k] for a property name [k] that no prototype provides and that is
    not [length]: every name the handlers read off a request
    ([message], [data], [type], [description], [predictedImpact],
    [location], [reportedBy], [latitude], [longitude]) is such a name. *)
Definition getProp (v : jsValue) (k : string) : result jsValue :=
  match v with
  | JUndefined =>
    Throw (TypeError ("Cannot read properties of undefined (reading '" +:+ k +:+ "')"))
  | JNull =>
    Throw (TypeError ("Cannot read properties of null (reading '" +:+ k +:+ "')"))
  | _ => Ok (default JUndefined (ownProps v !! k))
  end.

(** [v.k = x] on an object; on a primitive the assignment is dropped. *)
Definition setProp (v : jsValue) (k : string) (x : jsValue) : jsValue :=
  match v with
  | JObj o => JObj (<[k := x]> o)
  | _ => v
  end.

(** [v.k] where [v] is known not to be [null] or [undefined], as on the
    right of a guard [!v || !v.k]. *)
Definition prop (v : jsValue) (k : string) : jsValue :=
  default JUndefined (ownProps v !! k).

(** The number [m] (a positive integer). *)
Definition integer (m : positive) : number := S754_finite false m 0.
Definition zero : number := S754_zero false.

(** ** The document store, the topics, and the environment of a request *)

Record world : Type := World {
  (* collection name ↦ document id ↦ document *)
  firestore : gmap string (gmap string jsValue);
  (* topic name ↦ the values whose JSON text was published, oldest first *)
  pubsub : gmap string (list jsValue)
}.

Record env : Type := Env {
  autoId : string;                (* the identifier [add] generates *)
  addRejects : option jsError;    (* the store refuses the write *)
  publishResult : result string;  (* the message id, or the rejection *)
  now : string                    (* [new Date().toISOString()] *)
}.

Definition collection (w : world) (name : string) : gmap string jsValue :=
  default ∅ (firestore w !! name).

Definition topic (w : world) (name : string) : list jsValue :=
  default [] (pubsub w !! name).

(** [await db.collection(name).add(doc)]: creates a document under a
    generated identifier that is not in use, or rejects. *)
Definition collection_add (name : string) (doc : jsValue) (e : env) (w : world)
  : result string * world :=
  match addRejects e with
  | Some err => (Throw err, w)
  | None =>
    match collection w name !! autoId e with
    | Some _ => (Throw (Error "ALREADY_EXISTS"), w)
    | None =>
      (Ok (autoId e),
       World (<[name := <[autoId e := doc]> (collection w name)]> (firestore w))
             (pubsub w))
    end
  end.

(** [await pubsub.topic(name).publishMessage({ data: Buffer.from(JSON.stringify(v)) })] *)
Definition topic_publish (name : string) (v : jsValue) (e : env) (w : world)
  : result string * world :=
  match publishResult e with
  | Ok messageId =>
    (Ok messageId,
     World (firestore w) (<[name := (topic w name ++ [v])%list]> (pubsub w)))
  | Throw err => (Throw err, w)
  end.

(** ** Responses *)

Inductive body : Type :=
| Text (s : string)      (* res.send *)
| Json (v : jsValue).    (* res.json *)

Record response : Type := Response { status : Z; content : body }.

(** What an [async] handler leaves behind: a response, or a rejected
    promise when an exception escapes it. *)
Inductive outcome : Type :=
| Responded (r : response)
| Rejected (e : jsError).

(** ** Data Ingestor: [app.post('/ingest')] *)

Module Ingestor.

Definition TOPIC_NAME := "raw-user-reports".

(** [!incidentData || !incidentData.description || !incidentData.location
    || !incidentData.reportedBy] *)
Definition missing_required (incidentData : jsValue) : bool :=
  negb (truthy incidentData)
  || negb (truthy (prop incidentData "description"))
  || negb (truthy (prop incidentData "location"))
  || negb (truthy (prop incidentData "reportedBy")).

Definition bad_request : response :=
  Response 400 (Json (JObj {[ "error" :=
    JStr "Bad Request: Missing required incident data (description, location, or reportedBy)." ]})).

Definition server_error (error : jsError) : response :=
  Response 500 (Json (JObj {[ "error" :=
    JStr ("Internal Server Error: Failed to ingest incident. Details: "
          +:+ error_message error) ]})).

(** The report after the two assignments of lines 50 and 51. *)
Definition stamped (incidentData : jsValue) : jsValue :=
  setProp (setProp incidentData "ingestedAt" JServerTimestamp)
          "status" (JStr "raw_ingested").

(** [{ ...incidentData, firestoreDocId: firestoreDocId }] *)
Definition dataToPublish (incidentData : jsValue) (firestoreDocId : string) : jsValue :=
  JObj (<["firestoreDocId" := JStr firestoreDocId]> (ownProps incidentData)).

Definition accepted (e : env) (messageId firestoreDocId : string) : response :=
  Response 200 (Json (JObj
    (<["receivedTimestamp" := JStr (now e)]>
    (<["firestoreDocId" := JStr firestoreDocId]>
    (<["messageId" := JStr messageId]>
    {[ "message" := JStr "Incident received, stored, and queued for processing." ]}))))).

Definition handler (e : env) (req_body : jsValue) (w : world) : outcome * world :=
  let incidentData := req_body in
  if missing_required incidentData then (Responded bad_request, w)
  else
    let incidentData := stamped incidentData in
    match collection_add "rawReports" incidentData e w with
    | (Throw error, w1) => (Responded (server_error error), w1)
    | (Ok firestoreDocId, w1) =>
      match topic_publish TOPIC_NAME (dataToPublish incidentData firestoreDocId) e w1 with
      | (Throw error, w2) => (Responded (server_error error), w2)
      | (Ok messageId, w2) => (Responded (accepted e messageId firestoreDocId), w2)
      end
    end.

End Ingestor.

(** ** The push envelope, as the Processor and the Writer both read it *)

Section PushEnvelope.

(** [Buffer.from(x, 'base64').toString('utf8')] and [JSON.parse] belong
    to the platform; each returns or throws. *)
Variable Buffer_from_base64_utf8 : jsValue → result string.
Variable JSON_parse : string → result jsValue.

(** [!req.body || !req.body.message || !req.body.message.data] *)
Definition malformed (req_body : jsValue) : bool :=
  negb (truthy req_body)
  || negb (truthy (prop req_body "message"))
  || negb (truthy (prop (prop req_body "message") "data")).

(** [req.body.message.data] *)
Definition message_data (req_body : jsValue) : jsValue :=
  prop (prop req_body "message") "data".

(** The body of the [try] block that decodes the payload. *)
Definition decode (data : jsValue) : result jsValue :=
  messageData ← Buffer_from_base64_utf8 data;
  JSON_parse messageData.

End PushEnvelope.

(** ** User Report Processor: [app.post('/')] *)

Module Processor.

Definition PROCESSED_EVENTS_TOPIC := "processed-events".

(** [{ duration: "unknown", affectedCommuters: 0, spreadDirection: "N/A" }] *)
Definition default_impact : jsValue :=
  JObj (<["spreadDirection" := JStr "N/A"]>
       (<["affectedCommuters" := JNum zero]>
       {[ "duration" := JStr "unknown" ]})).

(** [s.substring(0, Math.min(s.length, 100))] *)
Definition first100 (s : string) : string :=
  String.substring 0 (Nat.min (String.length s) 100) s.

(** The [summary:] line.  A truthy description that is not a string has
    no callable [substring]. *)
Definition summary (incidentData : jsValue) : result jsValue :=
  description ← getProp incidentData "description";
  if truthy description then
    match description with
    | JStr s => Ok (JStr ("Incident: " +:+ first100 s +:+ "..."))
    | _ => Throw (TypeError "incidentData.description.substring is not a function")
    end
  else Ok (JStr "Incident reported.").

(** The object literal of lines 48 to 62. *)
Definition processedIncident (incidentData : jsValue) : result jsObject :=
  type ← getProp incidentData "type";
  summary ← summary incidentData;
  predictedImpact ← getProp incidentData "predictedImpact";
  Ok (<["agentResponsible" := JStr "User Report Processing (Cloud Run Placeholder)"]>
     (<["predictedImpact" := js_or predictedImpact default_impact]>
     (<["summary" := summary]>
     (<["eventType" := js_or type (JStr "general_incident")]>
     (<["processedTimestamp" := JServerTimestamp]>
     (<["status" := JStr "processed"]>
     (ownProps incidentData))))))).

Section Handler.

Variable Buffer_from_base64_utf8 : jsValue → result string.
Variable JSON_parse : string → result jsValue.

Definition handler (e : env) (req_body : jsValue) (w : world) : outcome * world :=
  if malformed req_body then
    (Responded (Response 400 (Text "Bad Request: Invalid Pub/Sub message format.")), w)
  else
    match decode Buffer_from_base64_utf8 JSON_parse (message_data req_body) with
    | Throw _ =>
      (Responded (Response 400 (Text "Bad Request: Could not decode or parse message data.")), w)
    | Ok incidentData =>
      match processedIncident incidentData with
      | Throw error => (Rejected error, w)
      | Ok processed =>
        match topic_publish PROCESSED_EVENTS_TOPIC (JObj processed) e w with
        | (Ok _, w1) =>
          (Responded (Response 200 (Text "Message processed and published.")), w1)
        | (Throw _, w1) =>
          (Responded (Response 500
             (Text "Internal Server Error: Failed to publish processed message.")), w1)
        end
      end
    end.

End Handler.

End Processor.

(** ** Firestore Event Writer: [app.post('/')] *)

Module Writer.

Section Handler.

Variable Buffer_from_base64_utf8 : jsValue → result string.
Variable JSON_parse : string → result jsValue.
(** The constructor of the store's [GeoPoint] class checks its arguments
    and throws on those it does not accept. *)
Variable GeoPoint_accepts : number → number → bool.

(** [new admin.firestore.GeoPoint(lat, lng)], called on two numbers. *)
Definition new_GeoPoint (lat lng : jsValue) : result jsValue :=
  match lat, lng with
  | JNum x, JNum y =>
    if GeoPoint_accepts x y then Ok (JGeoPoint x y)
    else Throw (Error "Value for argument is not a valid GeoPoint coordinate.")
  | _, _ => Throw (Error "Value for argument is not a valid number.")
  end.

(** Lines 41 to 49: [firestoreLocation]. *)
Definition firestoreLocation (location : jsValue) : result jsValue :=
  if truthy location
     && is_number (prop location "latitude")
     && is_number (prop location "longitude")
  then new_GeoPoint (prop location "latitude") (prop location "longitude")
  else Ok JNull.

(** Lines 41 to 56.  Destructuring [null] or [undefined] throws. *)
Definition dataToSave (eventData : jsValue) : result jsObject :=
  if nullish eventData then
    Throw (TypeError "Cannot destructure property 'location' of 'eventData' as it is null.")
  else
    let location := prop eventData "location" in
    let restOfData := delete "location" (ownProps eventData) in
    firestoreLocation ← firestoreLocation location;
    Ok (<["firestoreCreatedAt" := JServerTimestamp]>
       (<["location" := js_or firestoreLocation (js_or location JNull)]>
       restOfData)).

Definition handler (e : env) (req_body : jsValue) (w : world) : outcome * world :=
  if malformed req_body then
    (Responded (Response 400 (Text "Bad Request: Invalid Pub/Sub message format.")), w)
  else
    match decode Buffer_from_base64_utf8 JSON_parse (message_data req_body) with
    | Throw _ =>
      (Responded (Response 400 (Text "Bad Request: Could not decode or parse message data.")), w)
    | Ok eventData =>
      match dataToSave eventData with
      | Throw error => (Rejected error, w)
      | Ok doc =>
        match collection_add "events" (JObj doc) e w with
        | (Ok _, w1) =>
          (Responded (Response 200 (Text "Event written to Firestore.")), w1)
        | (Throw _, w1) =>
          (Responded (Response 500
             (Text "Internal Server Error: Failed to write event to Firestore.")), w1)
        end
      end
    end.

End Handler.

End Writer.

(** ** [const port = process.env.PORT || 8080] *)

(** [process.env.NAME]: the variable's string, or [undefined]. *)
Definition process_env (environ : gmap string string) (name : string) : jsValue :=
  match environ !! name with
  | Some s => JStr s
  | None => JUndefined
  end.

(** The same line closes each of the three files. *)
Definition port (environ : gmap string string) : jsValue :=
  js_or (process_env environ "PORT") (JNum (integer 8080)).

Definition ingestor_port := port.
Definition processor_port := port.
Definition writer_port := port.

(** The six derived fields. *)
Definition derived_fields : gset string :=
  {[ "status"; "processedTimestamp"; "eventType"; "summary";
     "predictedImpact"; "agentResponsible" ]}.

(** A property name that starts with a digit, as every index key does. *)
Definition digit_head (s : string) : bool :=
  match s with
  | String c _ =>
    bool_decide (c ∈ ["0"; "1"; "2"; "3"; "4"; "5"; "6"; "7"; "8"; "9"]%char)
  | EmptyString => false
  end.

(** ** Sample requests and a sample platform, for the examples *)

Definition sample_env : env :=
  Env "Zk3vQ9" None (Ok "7340921") "2025-07-20T10:15:00.000Z".

Definition sample_world : world :=
  World {[ "rawReports" := {[ "Aa1" := JObj {[ "description" := JStr "Pothole" ]} ]} ]}
        {[ "raw-user-reports" := [JObj {[ "description" := JStr "Pothole" ]}] ]}.

Definition long_report : jsValue :=
  JObj {[ "description" :=
    JStr "Water main burst at the corner of 5th Avenue and Main Street, flooding two lanes and the subway stairs" ]}.

(** A platform for the examples: it decodes five payloads. *)
Definition quote : string := String "034"%char "".

Definition fire_text : string :=
  "{" +:+ quote +:+ "type" +:+ quote +:+ ":" +:+ quote +:+ "fire" +:+ quote +:+ "}".

Definition place_text : string :=
  "{" +:+ quote +:+ "location" +:+ quote +:+ ":{"
      +:+ quote +:+ "latitude" +:+ quote +:+ ":40,"
      +:+ quote +:+ "longitude" +:+ quote +:+ ":-73}}".

Definition sample_base64 (x : jsValue) : result string :=
  match x with
  | JStr s =>
    if String.eqb s "bnVsbA==" then Ok "null"
    else if String.eqb s "e30=" then Ok "{}"
    else if String.eqb s "aGVsbG8=" then Ok "hello"
    else if String.eqb s "eyJ0eXBlIjoiZmlyZSJ9" then Ok fire_text
    else if String.eqb s "eyJsb2NhdGlvbiI6eyJsYXRpdHVkZSI6NDAsImxvbmdpdHVkZSI6LTczfX0="
         then Ok place_text
    else Ok ""
  | _ => Throw (TypeError "The first argument must be of type string.")
  end.

Definition sample_JSON_parse (text : string) : result jsValue :=
  if String.eqb text "null" then Ok JNull
  else if String.eqb text "{}" then Ok (JObj ∅)
  else if String.eqb text fire_text then Ok (JObj {[ "type" := JStr "fire" ]})
  else if String.eqb text place_text then
    Ok (JObj {[ "location" :=
                  JObj {[ "latitude" := JNum (S754_finite false 5 3);
                          "longitude" := JNum (S754_finite true 73 0) ]} ]})
  else Throw (SyntaxError "Unexpected token in JSON").

(** A coordinate check for the examples: a latitude between -90 and 90
    and a longitude between -180 and 180. *)
Definition magnitude_at_most (bound : Z) (x : number) : bool :=
  match x with
  | S754_zero _ => true
  | S754_finite _ m e =>
    if (0 <=? e)%Z then (Z.pos m * 2 ^ e <=? bound)%Z
    else (Z.pos m <=? bound * 2 ^ (- e))%Z
  | _ => false
  end.

Definition sample_GeoPoint_accepts (lat lng : number) : bool :=
  magnitude_at_most 90 lat && magnitude_at_most 180 lng.

Definition push (data : string) : jsValue :=
  JObj {[ "message" := JObj {[ "data" := JStr data ]} ]}.

(** A [JSON.parse] for the examples that yields one given value. *)
Definition parses_to (v : jsValue) : string → result jsValue := λ _, Ok v.

(** * Properties *)

(** Reads a field through a chain of property writes. *)
Ltac read_field :=
  repeat first
    [ rewrite lookup_insert_eq
    | rewrite lookup_insert_ne by discriminate
    | rewrite lookup_delete_eq
    | rewrite lookup_delete_ne by discriminate ].

Example getProp_object :
  getProp (JObj {[ "type" := JStr "fire" ]}) "type" = Ok (JStr "fire").
Proof. reflexivity. Qed.

Example ownProps_string :
  ownProps (JStr "ab") !! "1" = Some (JStr "b").
Proof. reflexivity. Qed.

(** ** Index keys are numerals *)

Lemma pretty_N_char_digit x s : digit_head (String (pretty_N_char x) s) = true.
Proof. unfold pretty_N_char. by repeat case_match. Qed.

Lemma pretty_N_go_digit_head x s :
  digit_head s = true ∨ (0 < x)%N → digit_head (pretty_N_go x s) = true.
Proof.
  revert s. induction (N.lt_wf_0 x) as [x _ IH]; intros s Hs.
  assert (x = 0 ∨ 0 < x)%N as [->|Hx] by lia.
  - rewrite pretty_N_go_0. destruct Hs as [Hs|Hs]; [done|lia].
  - rewrite pretty_N_go_step by done.
    apply IH; [by apply N.div_lt|]. left. apply pretty_N_char_digit.
Qed.

Lemma pretty_nat_digit_head (i : nat) : digit_head (pretty i) = true.
Proof.
  unfold pretty, pretty_nat, pretty, pretty_N.
  case_decide; [done|]. apply pretty_N_go_digit_head. right. lia.
Qed.

Lemma index_props_named (l : list jsValue) (k : string) :
  digit_head k = false → index_props l !! k = None.
Proof.
  intros Hk. unfold index_props. apply not_elem_of_list_to_map_1.
  intros Hin. apply list_elem_of_fmap in Hin as [[k' x] [-> Hin]].
  apply elem_of_lookup_imap in Hin as (i & y & Heq & _).
  injection Heq as -> _. simpl in Hk.
  by rewrite pretty_nat_digit_head in Hk.
Qed.

(** Only an object has a property with a name that is not a numeral. *)
Lemma prop_named_object (v : jsValue) (k : string) :
  digit_head k = false → prop v k ≠ JUndefined → ∃ o, v = JObj o.
Proof.
  intros Hk Hp. destruct v; try (by exfalso; apply Hp); [..|by eexists].
  - exfalso. apply Hp. unfold prop. simpl. by rewrite index_props_named.
  - exfalso. apply Hp. unfold prop. simpl. by rewrite index_props_named.
Qed.

Lemma truthy_defined (v : jsValue) : truthy v = true → v ≠ JUndefined.
Proof. by intros Ht ->. Qed.

(** What is falsy has no property at all. *)
Lemma falsy_no_props (v : jsValue) (k : string) :
  truthy v = false → prop v k = JUndefined.
Proof.
  destruct v as [| |b|x|s|l|o| |]; try done.
  destruct s; [done|]. simpl. discriminate.
Qed.

Lemma getProp_prop (v : jsValue) (k : string) :
  nullish v = false → getProp v k = Ok (prop v k).
Proof. by destruct v. Qed.

Lemma getProp_nullish (v : jsValue) (k : string) :
  nullish v = true → ∃ m, getProp v k = Throw (TypeError m).
Proof. destruct v; try done; by eexists. Qed.

(** ** The Ingestor *)

Lemma missing_required_false (v : jsValue) :
  Ingestor.missing_required v = false ↔
  truthy (prop v "description") = true
  ∧ truthy (prop v "location") = true
  ∧ truthy (prop v "reportedBy") = true.
Proof.
  unfold Ingestor.missing_required. split.
  - intros H. repeat (apply orb_false_elim in H as [H ?]).
    repeat split; by apply negb_false_iff.
  - intros (Hd & Hl & Hr). rewrite Hd, Hl, Hr. simpl.
    destruct (truthy v) eqn:Hv; [done|].
    by rewrite (falsy_no_props v "description" Hv) in Hd.
Qed.

(** A body that passes the check is an object. *)
Lemma validated_object (v : jsValue) :
  Ingestor.missing_required v = false → ∃ o, v = JObj o.
Proof.
  intros H. apply missing_required_false in H as (Hd & _).
  by apply (prop_named_object v "description"), truthy_defined.
Qed.

Lemma absent_falsy (v : jsValue) (k : string) :
  ownProps v !! k = None → truthy (prop v k) = false.
Proof. unfold prop. by intros ->. Qed.

Lemma missing_required_absent (v : jsValue) :
  nullish v = true
  ∨ ownProps v !! "description" = None
  ∨ ownProps v !! "location" = None
  ∨ ownProps v !! "reportedBy" = None →
  Ingestor.missing_required v = true.
Proof.
  intros H. destruct (Ingestor.missing_required v) eqn:Hm; [done|].
  apply missing_required_false in Hm as (Hd & Hl & Hr).
  destruct H as [H|[H|[H|H]]].
  - destruct v; try done.
  - by rewrite (absent_falsy _ _ H) in Hd.
  - by rewrite (absent_falsy _ _ H) in Hl.
  - by rewrite (absent_falsy _ _ H) in Hr.
Qed.

(** C3.  A request whose body is absent, or lacks [description],
    [location] or [reportedBy], is answered 400 with an object that has
    an [error] message, and the store and the topics are left as they
    were: no record is written and no message is published. *)
Theorem ingestor_missing_field_rejected (e : env) (req_body : jsValue) (w : world) :
  nullish req_body = true
  ∨ ownProps req_body !! "description" = None
  ∨ ownProps req_body !! "location" = None
  ∨ ownProps req_body !! "reportedBy" = None →
  ∃ message,
    Ingestor.handler e req_body w
    = (Responded (Response 400 (Json (JObj {[ "error" := JStr message ]}))), w).
Proof.
  intros H. unfold Ingestor.handler.
  rewrite (missing_required_absent _ H). by eexists.
Qed.

Lemma ingestor_missing_field_rejected_witness :
  ∃ message,
    Ingestor.handler sample_env
      (JObj {[ "description" := JStr "Flood on 5th Ave"; "reportedBy" := JStr "user1" ]})
      sample_world
    = (Responded (Response 400 (Json (JObj {[ "error" := JStr message ]}))), sample_world).
Proof.
  apply ingestor_missing_field_rejected. right. right. left. reflexivity.
Defined.

Lemma collection_add_Ok name doc e w id :
  (collection_add name doc e w).1 = Ok id →
  id = autoId e
  ∧ collection w name !! id = None
  ∧ collection_add name doc e w
    = (Ok id, World (<[name := <[id := doc]> (collection w name)]> (firestore w))
                    (pubsub w)).
Proof.
  unfold collection_add. destruct (addRejects e); [done|].
  destruct (collection w name !! autoId e) eqn:Hfree; [done|].
  simpl. by intros [= <-].
Qed.

Lemma collection_insert w name c p :
  collection (World (<[name := c]> (firestore w)) p) name = c.
Proof. unfold collection. simpl. by rewrite lookup_insert_eq. Qed.

(** C2 as the spec words it fails when the store or the topic refuses:
    for a body with the three fields truthy and a store that rejects the
    write, the response is 500, not 200, and neither a record nor a
    message is added. *)
Lemma ingestor_accepts_counterexample :
  let req_body :=
    JObj {[ "description" := JStr "Flood on 5th Ave";
            "location" := JObj {[ "latitude" := JNum (S754_finite false 5 3);
                                  "longitude" := JNum (S754_finite true 73 0) ]};
            "reportedBy" := JStr "user1" ]} in
  let e := Env "Zk3vQ9" (Some (Error "UNAVAILABLE")) (Ok "7340921")
               "2025-07-20T10:15:00.000Z" in
  truthy (prop req_body "description") = true
  ∧ truthy (prop req_body "location") = true
  ∧ truthy (prop req_body "reportedBy") = true
  ∧ ∃ r : response,
      Ingestor.handler e req_body sample_world = (Responded r, sample_world)
      ∧ status r = 500%Z
      ∧ status r ≠ 200%Z.
Proof.
  cbv zeta. repeat split; try reflexivity.
  eexists. split; [reflexivity|]. split; [reflexivity|]. discriminate.
Qed.

(** C2, as the code has it.  A body with truthy [description], [location]
    and [reportedBy] is an object; the handler sets [ingestedAt] to the server-timestamp
    sentinel and [status] to ['raw_ingested'] on it.  When the store
    accepts the write and the topic acknowledges the message, the store
    gains exactly one record, this report, under an identifier that was
    not in use; the topic gains exactly one message, the report with the
    identifier added as [firestoreDocId]; and the response is 200 with
    [messageId], [firestoreDocId] and [receivedTimestamp]. *)
Theorem ingestor_accepts (e : env) (req_body : jsValue) (w : world)
    (firestoreDocId messageId : string) :
  Ingestor.missing_required req_body = false →
  (collection_add "rawReports" (Ingestor.stamped req_body) e w).1 = Ok firestoreDocId →
  publishResult e = Ok messageId →
  ∃ (o : jsObject) (reply : jsObject),
    req_body = JObj o ∧
    let report := <["status" := JStr "raw_ingested"]> (<["ingestedAt" := JServerTimestamp]> o) in
    let w' := World
      (<["rawReports" := <[firestoreDocId := JObj report]> (collection w "rawReports")]>
         (firestore w))
      (<[Ingestor.TOPIC_NAME :=
           (topic w Ingestor.TOPIC_NAME
            ++ [JObj (<["firestoreDocId" := JStr firestoreDocId]> report)])%list]>
         (pubsub w)) in
    Ingestor.handler e req_body w = (Responded (Response 200 (Json (JObj reply))), w')
    ∧ collection w "rawReports" !! firestoreDocId = None
    ∧ size (collection w' "rawReports") = S (size (collection w "rawReports"))
    ∧ reply !! "messageId" = Some (JStr messageId)
    ∧ reply !! "firestoreDocId" = Some (JStr firestoreDocId)
    ∧ reply !! "receivedTimestamp" = Some (JStr (now e)).
Proof.
  intros Hvalid Hadd Hpub.
  destruct (validated_object _ Hvalid) as [o ->].
  apply collection_add_Ok in Hadd as (-> & Hfree & Hadd).
  eexists o, _. split; [done|]. cbv zeta.
  split; [|split; [done|split]].
  - unfold Ingestor.handler. rewrite Hvalid, Hadd.
    unfold topic_publish. rewrite Hpub. unfold Ingestor.accepted.
    reflexivity.
  - rewrite collection_insert. by apply map_size_insert_None.
  - done.
Qed.

Lemma ingestor_accepts_witness :
  ∃ (o : jsObject) (reply : jsObject) (w' : world),
    JObj {[ "description" := JStr "Flood on 5th Ave";
            "location" := JObj ∅;
            "reportedBy" := JStr "user1" ]} = JObj o
    ∧ Ingestor.handler sample_env (JObj o) sample_world
      = (Responded (Response 200 (Json (JObj reply))), w')
    ∧ size (collection w' "rawReports") = 2
    ∧ length (topic w' "raw-user-reports") = 2
    ∧ reply !! "firestoreDocId" = Some (JStr "Zk3vQ9").
Proof.
  destruct (ingestor_accepts sample_env
              (JObj {[ "description" := JStr "Flood on 5th Ave";
                       "location" := JObj ∅;
                       "reportedBy" := JStr "user1" ]})
              sample_world "Zk3vQ9" "7340921")
    as (o & reply & Ho & Hrun & _ & Hsize & _ & Hid & _);
    [reflexivity..|].
  exists o, reply. eexists. split; [exact Ho|]. rewrite <- Ho.
  split; [exact Hrun|]. split; [exact Hsize|]. split; [|exact Hid].
  reflexivity.
Defined.

(** C6.  When the store accepts the write and the publish then fails, the
    response is 500, the record written stays in the store, and no
    message is queued: the topics are as they were. *)
Theorem ingestor_publish_failure_keeps_record (e : env) (req_body : jsValue)
    (w : world) (firestoreDocId : string) (error : jsError) :
  Ingestor.missing_required req_body = false →
  (collection_add "rawReports" (Ingestor.stamped req_body) e w).1 = Ok firestoreDocId →
  publishResult e = Throw error →
  ∃ (w' : world) (reply : jsValue),
    Ingestor.handler e req_body w = (Responded (Response 500 (Json reply)), w')
    ∧ collection w "rawReports" !! firestoreDocId = None
    ∧ collection w' "rawReports" !! firestoreDocId = Some (Ingestor.stamped req_body)
    ∧ size (collection w' "rawReports") = S (size (collection w "rawReports"))
    ∧ pubsub w' = pubsub w.
Proof.
  intros Hvalid Hadd Hpub.
  apply collection_add_Ok in Hadd as (-> & Hfree & Hadd).
  eexists _, _. split; [|split; [done|]].
  - unfold Ingestor.handler. rewrite Hvalid, Hadd.
    unfold topic_publish. rewrite Hpub. reflexivity.
  - rewrite collection_insert. split; [by rewrite lookup_insert_eq|].
    split; [by apply map_size_insert_None|done].
Qed.

Lemma ingestor_publish_failure_keeps_record_witness :
  ∃ (w' : world) (reply : jsValue),
    Ingestor.handler (Env "Zk3vQ9" None (Throw (Error "DEADLINE_EXCEEDED")) "t")
      (JObj {[ "description" := JStr "Flood on 5th Ave";
               "location" := JStr "5th Ave";
               "reportedBy" := JStr "user1" ]})
      sample_world
    = (Responded (Response 500 (Json reply)), w')
    ∧ size (collection w' "rawReports") = 2
    ∧ pubsub w' = pubsub sample_world.
Proof.
  destruct (ingestor_publish_failure_keeps_record
              (Env "Zk3vQ9" None (Throw (Error "DEADLINE_EXCEEDED")) "t")
              (JObj {[ "description" := JStr "Flood on 5th Ave";
                       "location" := JStr "5th Ave";
                       "reportedBy" := JStr "user1" ]})
              sample_world "Zk3vQ9" (Error "DEADLINE_EXCEEDED"))
    as (w' & reply & Hrun & _ & _ & Hsize & Hq); [reflexivity..|].
  exists w', reply. split; [exact Hrun|]. split; [exact Hsize|exact Hq].
Defined.

Lemma ingestor_rejects (e : env) (req_body : jsValue) (w : world) :
  Ingestor.missing_required req_body = true →
  Ingestor.handler e req_body w = (Responded Ingestor.bad_request, w).
Proof. intros H. unfold Ingestor.handler. by rewrite H. Qed.

Lemma ingestor_proceeds (e : env) (req_body : jsValue) (w : world) :
  Ingestor.missing_required req_body = false →
  ∃ r w', Ingestor.handler e req_body w = (Responded r, w')
          ∧ (status r = 200%Z ∨ status r = 500%Z).
Proof.
  intros H. unfold Ingestor.handler. rewrite H.
  destruct (collection_add _ _ e w) as [[id|err] w1]; [|by eexists _, _; eauto].
  destruct (topic_publish _ _ e w1) as [[mid|err] w2]; eexists _, _; eauto.
Qed.

(** C10.  The required-field check is by truthiness.  A report whose
    [description], [location] or [reportedBy] is falsy is answered as the
    report without that field is: 400, nothing written, nothing
    published.  The empty string, 0, [false] and [null] are falsy.  A
    report whose three fields are truthy is not answered 400; an empty
    object is truthy. *)
Theorem ingestor_validation_is_truthiness (e : env) (o : jsObject) (w : world) :
  let field k := default JUndefined (o !! k) in
  (∀ k, k ∈ ["description"; "location"; "reportedBy"] →
     truthy (field k) = false →
     Ingestor.handler e (JObj o) w = (Responded Ingestor.bad_request, w)
     ∧ Ingestor.handler e (JObj (delete k o)) w = (Responded Ingestor.bad_request, w))
  ∧ (truthy (field "description") = true →
     truthy (field "location") = true →
     truthy (field "reportedBy") = true →
     ∃ r w', Ingestor.handler e (JObj o) w = (Responded r, w') ∧ status r ≠ 400%Z)
  ∧ status Ingestor.bad_request = 400%Z
  ∧ truthy (JStr "") = false
  ∧ truthy (JNum zero) = false
  ∧ truthy (JBool false) = false
  ∧ truthy JNull = false
  ∧ truthy (JObj ∅) = true.
Proof.
  cbv zeta. split; [|split; [|done]].
  - intros k Hk Hfalsy.
    assert (∀ o' : jsObject, truthy (default JUndefined (o' !! k)) = false →
            Ingestor.missing_required (JObj o') = true) as Hmiss.
    { intros o' Ho'. destruct (Ingestor.missing_required (JObj o')) eqn:Hm; [done|].
      apply missing_required_false in Hm as (Hd & Hl & Hr).
      unfold prop in Hd, Hl, Hr. simpl in Hd, Hl, Hr.
      repeat (apply elem_of_cons in Hk as [->|Hk]); [congruence..|].
      by apply elem_of_nil in Hk. }
    split; apply ingestor_rejects, Hmiss; [done|].
    by rewrite lookup_delete_eq.
  - intros Hd Hl Hr.
    destruct (ingestor_proceeds e (JObj o) w) as (r & w' & Hrun & Hst).
    { by apply missing_required_false. }
    exists r, w'. split; [done|]. destruct Hst as [-> | ->]; done.
Qed.

Example ingestor_empty_description :
  Ingestor.handler sample_env
    (JObj {[ "description" := JStr ""; "location" := JObj ∅; "reportedBy" := JStr "u" ]})
    sample_world
  = (Responded Ingestor.bad_request, sample_world).
Proof. reflexivity. Qed.

Example ingestor_empty_object_location :
  (Ingestor.handler sample_env
     (JObj {[ "description" := JStr "d"; "location" := JObj ∅; "reportedBy" := JStr "u" ]})
     sample_world).1
  = Responded (Ingestor.accepted sample_env "7340921" "Zk3vQ9").
Proof. reflexivity. Qed.

(** ** The Processor *)

Lemma length_append (s t : string) :
  String.length (s +:+ t) = String.length s + String.length t.
Proof. induction s as [|c s IH]; simpl; [done|]. by rewrite IH. Qed.

Lemma substring_0_length (n : nat) (s : string) :
  (n ≤ String.length s)%nat → String.length (String.substring 0 n s) = n.
Proof.
  revert s. induction n as [|n IH]; intros [|c s] Hn; simpl in *; try done; [lia|].
  rewrite IH; [done|lia].
Qed.

Lemma substring_0_all (s : string) :
  String.substring 0 (String.length s) s = s.
Proof. induction s as [|c s IH]; simpl; [done|]. by rewrite IH. Qed.

Lemma first100_long (s : string) :
  (100 < String.length s)%nat → Processor.first100 s = String.substring 0 100 s.
Proof. intros H. unfold Processor.first100. by rewrite Nat.min_r by lia. Qed.

Lemma first100_short (s : string) :
  (String.length s ≤ 100)%nat → Processor.first100 s = s.
Proof.
  intros H. unfold Processor.first100. rewrite Nat.min_l by done.
  apply substring_0_all.
Qed.

Lemma first100_length (s : string) :
  String.length (Processor.first100 s) = Nat.min (String.length s) 100.
Proof. unfold Processor.first100. apply substring_0_length. lia. Qed.

Lemma processedIncident_Ok (incidentData : jsValue) (out : jsObject) :
  Processor.processedIncident incidentData = Ok out →
  nullish incidentData = false
  ∧ ∃ text,
      Processor.summary incidentData = Ok text
      ∧ out =
        <["agentResponsible" := JStr "User Report Processing (Cloud Run Placeholder)"]>
        (<["predictedImpact" :=
             js_or (prop incidentData "predictedImpact") Processor.default_impact]>
        (<["summary" := text]>
        (<["eventType" := js_or (prop incidentData "type") (JStr "general_incident")]>
        (<["processedTimestamp" := JServerTimestamp]>
        (<["status" := JStr "processed"]>
        (ownProps incidentData)))))).
Proof.
  unfold Processor.processedIncident.
  destruct (nullish incidentData) eqn:Hn.
  { destruct (getProp_nullish incidentData "type" Hn) as [m ->]. done. }
  rewrite !getProp_prop by done. simpl.
  destruct (Processor.summary incidentData) as [text|err]; simpl; [|done].
  intros [= <-]. eauto.
Qed.

Lemma summary_defined (incidentData : jsValue) :
  nullish incidentData = false →
  truthy (prop incidentData "description") = false
  ∨ (∃ s, prop incidentData "description" = JStr s) →
  ∃ text, Processor.summary incidentData = Ok text.
Proof.
  intros Hn Hd. unfold Processor.summary. rewrite getProp_prop by done. simpl.
  destruct Hd as [->|[s ->]]; [by eexists|].
  destruct (truthy (JStr s)); by eexists.
Qed.

(** The record is built exactly for the inputs that are not [null] and
    whose description is falsy or a string. *)
Lemma processedIncident_defined (incidentData : jsValue) :
  nullish incidentData = false →
  truthy (prop incidentData "description") = false
  ∨ (∃ s, prop incidentData "description" = JStr s) →
  ∃ out, Processor.processedIncident incidentData = Ok out.
Proof.
  intros Hn Hd. destruct (summary_defined _ Hn Hd) as [text Ht].
  unfold Processor.processedIncident.
  rewrite !getProp_prop by done. simpl. rewrite Ht. simpl. by eexists.
Qed.

Lemma getProp_Ok (v x : jsValue) (k : string) :
  getProp v k = Ok x → nullish v = false ∧ prop v k = x.
Proof.
  destruct (nullish v) eqn:Hn.
  - destruct (getProp_nullish v k Hn) as [m ->]. done.
  - rewrite getProp_prop by done. by intros [= <-].
Qed.

(** C1, as the code has it.  When the description is a non-empty string,
    the summary is ["Incident: "], then the first 100 characters of the
    description (all of it when it has at most 100), then ["..."]: at
    most 113 characters, and exactly 113 when the description is longer
    than 100.  When the description is the empty string the summary is
    ["Incident reported."]. *)
Theorem processor_summary_of_string (incidentData : jsValue) (s : string) :
  getProp incidentData "description" = Ok (JStr s) →
  ∃ (out : jsObject) (t : string),
    Processor.processedIncident incidentData = Ok out
    ∧ out !! "summary" = Some (JStr t)
    ∧ (s = "" → t = "Incident reported.")
    ∧ (s ≠ "" →
       (String.length t ≤ 113)%nat
       ∧ ((100 < String.length s)%nat →
          t = "Incident: " +:+ String.substring 0 100 s +:+ "..."
          ∧ String.length t = 113)
       ∧ ((String.length s ≤ 100)%nat → t = "Incident: " +:+ s +:+ "...")).
Proof.
  intros Hd. apply getProp_Ok in Hd as [Hn Hd].
  destruct (processedIncident_defined incidentData Hn) as [out Hout]; [by eauto|].
  destruct (processedIncident_Ok _ _ Hout) as (_ & text & Ht & ->).
  unfold Processor.summary in Ht. rewrite getProp_prop, Hd in Ht by done.
  simpl in Ht. destruct s as [|c s].
  - injection Ht as <-. eexists _, _. split; [done|].
    split; [by read_field|]. done.
  - injection Ht as <-. eexists _, _. split; [done|].
    split; [by read_field|].
    split; [done|]. intros _. split; [|split].
    + rewrite !length_append, first100_length. simpl. lia.
    + intros Hlong. rewrite first100_long by done. split; [done|].
      rewrite !length_append, substring_0_length by lia. done.
    + intros Hshort. by rewrite first100_short.
Qed.

Lemma processor_summary_of_string_witness :
  ∃ (out : jsObject) (t : string),
    Processor.processedIncident long_report = Ok out
    ∧ out !! "summary" = Some (JStr t)
    ∧ String.length t = 113.
Proof.
  destruct (processor_summary_of_string long_report
    "Water main burst at the corner of 5th Avenue and Main Street, flooding two lanes and the subway stairs")
    as (out & t & Hout & Hsum & _ & Hlen); [reflexivity|].
  exists out, t. split; [exact Hout|]. split; [exact Hsum|].
  destruct Hlen as (_ & Hlong & _); [discriminate|].
  destruct Hlong as [_ H113]; [simpl; lia|]. exact H113.
Defined.

(** C1 as the spec words it fails twice.  For the 102-character
    description of [long_report] the summary has 113 characters, more
    than 103; for the 5-character description ["Flood"] the summary is
    ["Incident: Flood..."], not ["Flood..."]. *)
Lemma processor_summary_counterexample :
  (∃ (out : jsObject) (t : string),
     Processor.processedIncident long_report = Ok out
     ∧ out !! "summary" = Some (JStr t)
     ∧ ¬ (String.length t ≤ 103)%nat)
  ∧ (∃ out : jsObject,
       Processor.processedIncident (JObj {[ "description" := JStr "Flood" ]}) = Ok out
       ∧ out !! "summary" = Some (JStr "Incident: Flood...")
       ∧ out !! "summary" ≠ Some (JStr ("Flood" +:+ "..."))).
Proof.
  split.
  - eexists _, _. split; [reflexivity|]. split; [reflexivity|]. simpl. lia.
  - eexists. split; [reflexivity|]. split; [reflexivity|]. discriminate.
Qed.

Lemma processor_publishes B J (e : env) (req_body incidentData : jsValue)
    (w : world) (out : jsObject) :
  malformed req_body = false →
  decode B J (message_data req_body) = Ok incidentData →
  Processor.processedIncident incidentData = Ok out →
  (Processor.handler B J e req_body w).2
  = (topic_publish Processor.PROCESSED_EVENTS_TOPIC (JObj out) e w).2.
Proof.
  intros Hm Hd Hp. unfold Processor.handler. rewrite Hm, Hd, Hp.
  by destruct (topic_publish _ _ e w) as [[mid|err] w1].
Qed.

(** C7.  The record the Processor hands to the topic has the fields of
    the decoded input and the six derived fields, and no others; every
    field of the input other than those six has the value it had; and
    each of the six holds the value the Processor derives, whatever the
    input held under that name: ['processed'], the server-timestamp
    sentinel, the type or ['general_incident'], the summary of line 54,
    the predicted impact or the placeholder, and the agent label. *)
Theorem processor_frame
    (Buffer_from_base64_utf8 : jsValue → result string)
    (JSON_parse : string → result jsValue)
    (e : env) (req_body incidentData : jsValue) (w : world) (out : jsObject) :
  malformed req_body = false →
  decode Buffer_from_base64_utf8 JSON_parse (message_data req_body) = Ok incidentData →
  Processor.processedIncident incidentData = Ok out →
  (Processor.handler Buffer_from_base64_utf8 JSON_parse e req_body w).2
  = (topic_publish Processor.PROCESSED_EVENTS_TOPIC (JObj out) e w).2
  ∧ dom out = dom (ownProps incidentData) ∪ derived_fields
  ∧ (∀ k, k ∉ derived_fields → out !! k = ownProps incidentData !! k)
  ∧ (∀ k, k ∈ derived_fields → is_Some (out !! k))
  ∧ out !! "status" = Some (JStr "processed")
  ∧ out !! "processedTimestamp" = Some JServerTimestamp
  ∧ out !! "eventType"
    = Some (if truthy (prop incidentData "type") then prop incidentData "type"
            else JStr "general_incident")
  ∧ out !! "summary"
    = Some (JStr match prop incidentData "description" with
                 | JStr (String c s) =>
                   "Incident: "
                   +:+ String.substring 0 (Nat.min (String.length (String c s)) 100)
                         (String c s)
                   +:+ "..."
                 | _ => "Incident reported."
                 end)
  ∧ out !! "predictedImpact"
    = Some (if truthy (prop incidentData "predictedImpact")
            then prop incidentData "predictedImpact"
            else JObj {[ "duration" := JStr "unknown";
                         "affectedCommuters" := JNum zero;
                         "spreadDirection" := JStr "N/A" ]})
  ∧ out !! "agentResponsible"
    = Some (JStr "User Report Processing (Cloud Run Placeholder)").
Proof.
  intros Hm Hd Hp. split; [by apply processor_publishes with incidentData|].
  destruct (processedIncident_Ok _ _ Hp) as (Hn & text & Ht & ->).
  split; [|split; [|split]].
  - rewrite !dom_insert_L. unfold derived_fields.
    apply set_eq. intros k. set_unfold. tauto.
  - intros k Hk. unfold derived_fields in Hk. set_unfold in Hk.
    rewrite !lookup_insert_ne; [done|intros <-; apply Hk; auto 10..].
  - intros k Hk. apply elem_of_dom. rewrite !dom_insert_L.
    unfold derived_fields in Hk. set_unfold. tauto.
  - read_field. repeat split; try done.
    f_equal. unfold Processor.summary in Ht.
    rewrite getProp_prop in Ht by done. simpl in Ht.
    destruct (truthy (prop incidentData "description")) eqn:Htruthy.
    + destruct (prop incidentData "description") as [| | | |s| | | |]; try done.
      destruct s as [|c s]; [done|]. by injection Ht as <-.
    + injection Ht as <-.
      destruct (prop incidentData "description") as [| | | |s| | | |]; try done.
      by destruct s.
Qed.

(** C8 as the spec words it fails on a field that is present and falsy:
    with [type] the empty string and [predictedImpact] [null], both
    present, the output has the two defaults. *)
Lemma processor_defaults_counterexample :
  let incidentData : jsObject := {[ "type" := JStr ""; "predictedImpact" := JNull ]} in
  ∃ out : jsObject,
    Processor.processedIncident (JObj incidentData) = Ok out
    ∧ incidentData !! "type" = Some (JStr "")
    ∧ out !! "eventType" = Some (JStr "general_incident")
    ∧ out !! "eventType" ≠ incidentData !! "type"
    ∧ incidentData !! "predictedImpact" = Some JNull
    ∧ out !! "predictedImpact" = Some Processor.default_impact
    ∧ out !! "predictedImpact" ≠ incidentData !! "predictedImpact".
Proof.
  cbv zeta. eexists. split; [reflexivity|].
  repeat split; try reflexivity; discriminate.
Qed.

(** C8, as the code has it.  [eventType] is the input's [type] when that
    is truthy and ['general_incident'] when it is absent or falsy;
    [predictedImpact] is the input's when that is truthy and
    [{duration: 'unknown', affectedCommuters: 0, spreadDirection: 'N/A'}]
    when it is absent or falsy. *)
Theorem processor_defaults (incidentData : jsValue) (out : jsObject) :
  Processor.processedIncident incidentData = Ok out →
  let fallback (k : string) (d : jsValue) :=
    match ownProps incidentData !! k with
    | Some v => if truthy v then v else d
    | None => d
    end in
  out !! "eventType" = Some (fallback "type" (JStr "general_incident"))
  ∧ out !! "predictedImpact"
    = Some (fallback "predictedImpact"
              (JObj {[ "duration" := JStr "unknown";
                       "affectedCommuters" := JNum zero;
                       "spreadDirection" := JStr "N/A" ]})).
Proof.
  intros Hp. destruct (processedIncident_Ok _ _ Hp) as (_ & text & _ & ->).
  cbv zeta. read_field. unfold js_or, prop.
  split.
  - by destruct (ownProps incidentData !! "type").
  - by destruct (ownProps incidentData !! "predictedImpact").
Qed.

Lemma processor_defaults_witness :
  ∃ out : jsObject,
    Processor.processedIncident
      (JObj {[ "type" := JStr "fire"; "description" := JStr "Smoke" ]}) = Ok out
    ∧ out !! "eventType" = Some (JStr "fire")
    ∧ out !! "predictedImpact"
      = Some (JObj {[ "duration" := JStr "unknown";
                      "affectedCommuters" := JNum zero;
                      "spreadDirection" := JStr "N/A" ]}).
Proof.
  eexists. split; [reflexivity|].
  exact (processor_defaults
           (JObj {[ "type" := JStr "fire"; "description" := JStr "Smoke" ]})
           _ eq_refl).
Defined.

(** ** The push envelope *)

Lemma no_data_malformed (req_body : jsValue) :
  message_data req_body = JUndefined → malformed req_body = true.
Proof.
  unfold message_data, malformed. intros ->. simpl.
  by rewrite !orb_true_r.
Qed.

(** C4.  A push request without [message.data], or whose [message.data]
    does not decode (base64, then [JSON.parse]), is answered 400 by the
    Processor and by the Writer, and both leave the store and the topics
    as they were. *)
Theorem push_undecodable_rejected
    (Buffer_from_base64_utf8 : jsValue → result string)
    (JSON_parse : string → result jsValue)
    (GeoPoint_accepts : number → number → bool)
    (e : env) (req_body : jsValue) (w : world) :
  message_data req_body = JUndefined
  ∨ (∃ error,
       decode Buffer_from_base64_utf8 JSON_parse (message_data req_body) = Throw error) →
  ∃ reason1 reason2,
    Processor.handler Buffer_from_base64_utf8 JSON_parse e req_body w
    = (Responded (Response 400 (Text reason1)), w)
    ∧ Writer.handler Buffer_from_base64_utf8 JSON_parse GeoPoint_accepts e req_body w
      = (Responded (Response 400 (Text reason2)), w).
Proof.
  intros H. unfold Processor.handler, Writer.handler.
  destruct (malformed req_body) eqn:Hm; [by eexists _, _|].
  destruct H as [H|[error H]].
  - apply no_data_malformed in H. congruence.
  - rewrite H. by eexists _, _.
Qed.

Lemma push_undecodable_rejected_witness :
  ∃ reason1 reason2,
    Processor.handler sample_base64 sample_JSON_parse sample_env
      (push "aGVsbG8=") sample_world
    = (Responded (Response 400 (Text reason1)), sample_world)
    ∧ Writer.handler sample_base64 sample_JSON_parse sample_GeoPoint_accepts sample_env
        (push "aGVsbG8=") sample_world
      = (Responded (Response 400 (Text reason2)), sample_world).
Proof.
  apply push_undecodable_rejected. right.
  exists (SyntaxError "Unexpected token in JSON"). reflexivity.
Defined.

Lemma processor_frame_witness :
  let incidentData :=
    JObj {[ "type" := JStr "fire"; "description" := JStr "Smoke";
            "status" := JStr "raw_ingested"; "summary" := JStr "old" ]} in
  ∃ out : jsObject,
    topic (Processor.handler sample_base64 (parses_to incidentData) sample_env
             (push "e30=") sample_world).2
          "processed-events"
    = [JObj out]
    ∧ dom out = {[ "type"; "description" ]} ∪ derived_fields
    ∧ out !! "type" = Some (JStr "fire")
    ∧ out !! "status" = Some (JStr "processed")
    ∧ out !! "summary" = Some (JStr "Incident: Smoke...")
    ∧ out !! "eventType" = Some (JStr "fire").
Proof.
  cbv zeta.
  destruct (Processor.processedIncident
              (JObj {[ "type" := JStr "fire"; "description" := JStr "Smoke";
                       "status" := JStr "raw_ingested"; "summary" := JStr "old" ]}))
    as [out|] eqn:Hout; [|discriminate].
  destruct (processor_frame sample_base64
              (parses_to (JObj {[ "type" := JStr "fire"; "description" := JStr "Smoke";
                                  "status" := JStr "raw_ingested";
                                  "summary" := JStr "old" ]}))
              sample_env (push "e30=")
              (JObj {[ "type" := JStr "fire"; "description" := JStr "Smoke";
                       "status" := JStr "raw_ingested"; "summary" := JStr "old" ]})
              sample_world out)
    as (Hrun & Hdom & Hkeep & _ & Hstatus & _ & Hevent & Hsummary & _);
    [reflexivity..|exact Hout|].
  exists out. split; [by rewrite Hrun|].
  split.
  { rewrite Hdom. apply set_eq. intros k. simpl. rewrite !dom_insert_L, dom_singleton_L.
    unfold derived_fields. set_unfold. tauto. }
  split.
  { rewrite Hkeep; [reflexivity|]. unfold derived_fields. set_unfold.
    intros H; repeat destruct H as [H|H]; discriminate. }
  split; [exact Hstatus|]. split; [exact Hsummary|exact Hevent].
Defined.

(** ** The Writer *)

Lemma numeric_location_truthy (location : jsValue) (x : number) :
  prop location "latitude" = JNum x → truthy location = true.
Proof.
  intros H. destruct (truthy location) eqn:Ht; [done|].
  by rewrite (falsy_no_props location "latitude" Ht) in H.
Qed.

Lemma writer_saves B J G (e : env) (req_body eventData : jsValue) (w : world)
    (doc : jsObject) :
  malformed req_body = false →
  decode B J (message_data req_body) = Ok eventData →
  Writer.dataToSave G eventData = Ok doc →
  ∃ r, Writer.handler B J G e req_body w
       = (Responded r, (collection_add "events" (JObj doc) e w).2).
Proof.
  intros Hm Hd Hs. unfold Writer.handler. rewrite Hm, Hd, Hs.
  destruct (collection_add _ _ e w) as [[id|err] w1]; by eexists.
Qed.

(** C5 as the spec words it fails on a location that is present and
    falsy: the location 0 is stored as [null], not as 0. *)
Lemma writer_location_counterexample :
  let eventData : jsObject := {[ "location" := JNum zero; "status" := JStr "processed" ]} in
  ∃ doc : jsObject,
    Writer.dataToSave sample_GeoPoint_accepts (JObj eventData) = Ok doc
    ∧ is_number (prop (JNum zero) "latitude") = false
    ∧ doc !! "location" = Some JNull
    ∧ doc !! "location" ≠ eventData !! "location".
Proof.
  cbv zeta. eexists. split; [reflexivity|].
  repeat split; try reflexivity. discriminate.
Qed.

(** C5, as the code has it.  For a decoded input that is not [null]:
    when [location.latitude] and [location.longitude] are numbers that
    the [GeoPoint] constructor accepts, the document's location is the
    point with those coordinates; when they are not both numbers, it is
    the original location if that is truthy, and [null] if it is absent
    or falsy.  In each of these cases the handler goes on to write the
    document to the [events] collection and responds. *)
Theorem writer_location
    (Buffer_from_base64_utf8 : jsValue → result string)
    (JSON_parse : string → result jsValue)
    (GeoPoint_accepts : number → number → bool)
    (e : env) (req_body eventData : jsValue) (w : world) :
  malformed req_body = false →
  decode Buffer_from_base64_utf8 JSON_parse (message_data req_body) = Ok eventData →
  nullish eventData = false →
  let location := prop eventData "location" in
  let saved_with (stored : jsValue) :=
    ∃ (doc : jsObject) (r : response),
      Writer.dataToSave GeoPoint_accepts eventData = Ok doc
      ∧ doc !! "location" = Some stored
      ∧ Writer.handler Buffer_from_base64_utf8 JSON_parse GeoPoint_accepts e req_body w
        = (Responded r, (collection_add "events" (JObj doc) e w).2) in
  (∀ x y, prop location "latitude" = JNum x →
          prop location "longitude" = JNum y →
          GeoPoint_accepts x y = true →
          saved_with (JGeoPoint x y))
  ∧ (is_number (prop location "latitude") && is_number (prop location "longitude") = false →
     saved_with (if truthy location then location else JNull))
  ∧ (ownProps eventData !! "location" = None → saved_with JNull).
Proof.
  intros Hm Hd Hn. cbv zeta.
  assert (∀ fl : jsValue,
            Writer.firestoreLocation GeoPoint_accepts (prop eventData "location") = Ok fl →
            ∃ (doc : jsObject) (r : response),
              Writer.dataToSave GeoPoint_accepts eventData = Ok doc
              ∧ doc !! "location"
                = Some (js_or fl (js_or (prop eventData "location") JNull))
              ∧ Writer.handler Buffer_from_base64_utf8 JSON_parse GeoPoint_accepts
                  e req_body w
                = (Responded r, (collection_add "events" (JObj doc) e w).2)) as Hsave.
  { intros fl Hfl.
    assert (Writer.dataToSave GeoPoint_accepts eventData
            = Ok (<["firestoreCreatedAt" := JServerTimestamp]>
                 (<["location" := js_or fl (js_or (prop eventData "location") JNull)]>
                 (delete "location" (ownProps eventData))))) as Hdoc.
    { unfold Writer.dataToSave. rewrite Hn, Hfl. reflexivity. }
    destruct (writer_saves _ _ _ e _ _ w _ Hm Hd Hdoc) as [r Hrun].
    eexists _, r. split; [exact Hdoc|]. split; [by read_field|exact Hrun]. }
  assert (∀ loc, is_number (prop loc "latitude") && is_number (prop loc "longitude") = false →
                 Writer.firestoreLocation GeoPoint_accepts loc = Ok JNull) as Hplain.
  { intros loc Hnum. unfold Writer.firestoreLocation.
    by rewrite <- andb_assoc, Hnum, andb_false_r. }
  split; [|split].
  - intros x y Hlat Hlng Hacc.
    destruct (Hsave (JGeoPoint x y)) as (doc & r & H1 & H2 & H3).
    { unfold Writer.firestoreLocation.
      rewrite (numeric_location_truthy _ _ Hlat), Hlat, Hlng. simpl.
      by rewrite Hacc. }
    exists doc, r. split; [done|]. split; [|done]. by rewrite H2.
  - intros Hnum. destruct (Hsave JNull (Hplain _ Hnum)) as (doc & r & H1 & H2 & H3).
    exists doc, r. split; [done|]. split; [|done]. by rewrite H2.
  - intros Habs.
    assert (prop eventData "location" = JUndefined) as Hloc.
    { unfold prop. by rewrite Habs. }
    destruct (Hsave JNull) as (doc & r & H1 & H2 & H3).
    { apply Hplain. by rewrite Hloc. }
    exists doc, r. split; [done|]. split; [|done]. by rewrite H2, Hloc.
Qed.

Lemma writer_location_witness :
  ∃ (doc : jsObject) (r : response),
    Writer.handler sample_base64 sample_JSON_parse sample_GeoPoint_accepts sample_env
      (push "eyJsb2NhdGlvbiI6eyJsYXRpdHVkZSI6NDAsImxvbmdpdHVkZSI6LTczfX0=") sample_world
    = (Responded r, (collection_add "events" (JObj doc) sample_env sample_world).2)
    ∧ doc !! "location"
      = Some (JGeoPoint (S754_finite false 5 3) (S754_finite true 73 0)).
Proof.
  destruct (writer_location sample_base64 sample_JSON_parse sample_GeoPoint_accepts
              sample_env
              (push "eyJsb2NhdGlvbiI6eyJsYXRpdHVkZSI6NDAsImxvbmdpdHVkZSI6LTczfX0=")
              (JObj {[ "location" :=
                         JObj {[ "latitude" := JNum (S754_finite false 5 3);
                                 "longitude" := JNum (S754_finite true 73 0) ]} ]})
              sample_world)
    as (Hpoint & _ & _); [reflexivity..|].
  destruct (Hpoint (S754_finite false 5 3) (S754_finite true 73 0))
    as (doc & r & _ & Hloc & Hrun); [reflexivity..|].
  exists doc, r. split; [exact Hrun|exact Hloc].
Defined.

Example writer_document :
  (Writer.handler sample_base64 sample_JSON_parse sample_GeoPoint_accepts sample_env
     (push "eyJsb2NhdGlvbiI6eyJsYXRpdHVkZSI6NDAsImxvbmdpdHVkZSI6LTczfX0=") sample_world)
  = (Responded (Response 200 (Text "Event written to Firestore.")),
     World (<["events" := {[ "Zk3vQ9" :=
                JObj {[ "location" := JGeoPoint (S754_finite false 5 3) (S754_finite true 73 0);
                        "firestoreCreatedAt" := JServerTimestamp ]} ]}]>
              (firestore sample_world))
           (pubsub sample_world)).
Proof. reflexivity. Qed.

(** A decoded [null] cannot be destructured: the promise rejects and
    nothing is written. *)
Example writer_null_payload :
  Writer.handler sample_base64 sample_JSON_parse sample_GeoPoint_accepts sample_env
    (push "bnVsbA==") sample_world
  = (Rejected (TypeError "Cannot destructure property 'location' of 'eventData' as it is null."),
     sample_world).
Proof. reflexivity. Qed.

(** Coordinates the constructor refuses: the promise rejects too. *)
Example writer_refused_coordinates :
  Writer.dataToSave sample_GeoPoint_accepts
    (JObj {[ "location" := JObj {[ "latitude" := JNum (integer 100);
                                   "longitude" := JNum zero ]} ]})
  = Throw (Error "Value for argument is not a valid GeoPoint coordinate.").
Proof. reflexivity. Qed.

(** ** The port *)

(** C9 as the spec words it fails when [PORT] is set to the empty
    string: the port is then 8080, not the variable's value. *)
Lemma port_counterexample :
  let environ : gmap string string := {[ "PORT" := "" ]} in
  environ !! "PORT" = Some ""
  ∧ ingestor_port environ = JNum (integer 8080)
  ∧ ingestor_port environ ≠ JStr "".
Proof. cbv zeta. repeat split; try reflexivity. discriminate. Qed.

(** C9, as the code has it.  Each service takes its port from [PORT]
    when the variable is set and not empty, and takes 8080 when it is
    unset or empty. *)
Theorem port_from_environment (environ : gmap string string) :
  (∀ p, environ !! "PORT" = Some p → p ≠ "" →
        ingestor_port environ = JStr p
        ∧ processor_port environ = JStr p
        ∧ writer_port environ = JStr p)
  ∧ (environ !! "PORT" = None ∨ environ !! "PORT" = Some "" →
     ingestor_port environ = JNum (integer 8080)
     ∧ processor_port environ = JNum (integer 8080)
     ∧ writer_port environ = JNum (integer 8080)).
Proof.
  unfold ingestor_port, processor_port, writer_port, port, process_env, js_or.
  split.
  - intros p -> Hp. simpl. destruct p; [done|]. done.
  - intros [-> | ->]; done.
Qed.

Example port_set : port {[ "PORT" := "3000" ]} = JStr "3000".
Proof. reflexivity. Qed.

Example port_unset : port ∅ = JNum (integer 8080).
Proof. reflexivity. Qed.

(** * Further properties of the three handlers *)

(** ** The store and the topics *)

Lemma collection_add_Throw name doc e w error :
  (collection_add name doc e w).1 = Throw error →
  collection_add name doc e w = (Throw error, w).
Proof.
  unfold collection_add. destruct (addRejects e); [by intros [= ->]|].
  destruct (collection w name !! autoId e); [by intros [= <-]|done].
Qed.

Lemma collection_add_cases name doc e w :
  (∃ error, collection_add name doc e w = (Throw error, w))
  ∨ (∃ id, collection w name !! id = None
           ∧ collection_add name doc e w
             = (Ok id, World (<[name := <[id := doc]> (collection w name)]> (firestore w))
                             (pubsub w))).
Proof.
  destruct (collection_add name doc e w).1 as [id|error] eqn:H.
  - right. exists id. by apply collection_add_Ok in H as (_ & ? & ?).
  - left. exists error. by apply collection_add_Throw.
Qed.

Lemma topic_publish_cases name v e w :
  (∃ error, publishResult e = Throw error ∧ topic_publish name v e w = (Throw error, w))
  ∨ (∃ messageId, publishResult e = Ok messageId
       ∧ topic_publish name v e w
         = (Ok messageId,
            World (firestore w) (<[name := (topic w name ++ [v])%list]> (pubsub w)))).
Proof.
  unfold topic_publish. destruct (publishResult e) as [mid|error]; [right|left]; eauto.
Qed.

Lemma collection_other w name name' c p :
  name ≠ name' → collection (World (<[name := c]> (firestore w)) p) name' = collection w name'.
Proof. intros H. unfold collection. simpl. by rewrite lookup_insert_ne. Qed.

Lemma topic_insert w name l f :
  topic (World f (<[name := l]> (pubsub w))) name = l.
Proof. unfold topic. simpl. by rewrite lookup_insert_eq. Qed.

Lemma topic_other w name name' l f :
  name ≠ name' → topic (World f (<[name := l]> (pubsub w))) name' = topic w name'.
Proof. intros H. unfold topic. simpl. by rewrite lookup_insert_ne. Qed.

(** ** The Ingestor *)

(** X1.  When the store refuses the write, the Ingestor answers 500 with
    the store's message in the [error] text, and neither writes nor
    publishes: the publish is not attempted, whatever the topic would
    have answered. *)
Theorem ingestor_store_failure (e : env) (req_body : jsValue) (w : world)
    (error : jsError) :
  Ingestor.missing_required req_body = false →
  (collection_add "rawReports" (Ingestor.stamped req_body) e w).1 = Throw error →
  Ingestor.handler e req_body w
  = (Responded (Response 500 (Json (JObj {[ "error" :=
       JStr ("Internal Server Error: Failed to ingest incident. Details: "
             +:+ error_message error) ]}))), w).
Proof.
  intros Hvalid Hadd. apply collection_add_Throw in Hadd.
  unfold Ingestor.handler. by rewrite Hvalid, Hadd.
Qed.

Lemma ingestor_store_failure_witness :
  Ingestor.handler (Env "Zk3vQ9" (Some (Error "UNAVAILABLE")) (Ok "7340921") "t")
    (JObj {[ "description" := JStr "Flood on 5th Ave";
             "location" := JStr "5th Ave";
             "reportedBy" := JStr "user1" ]})
    sample_world
  = (Responded (Response 500 (Json (JObj {[ "error" :=
       JStr "Internal Server Error: Failed to ingest incident. Details: UNAVAILABLE" ]}))),
     sample_world).
Proof.
  apply (ingestor_store_failure
           (Env "Zk3vQ9" (Some (Error "UNAVAILABLE")) (Ok "7340921") "t")
           _ sample_world (Error "UNAVAILABLE")); reflexivity.
Defined.

(** X2.  The Ingestor answers every request: no exception escapes the
    handler.  The status is 400 exactly when the required-field check
    fails, 200 exactly when the check passes and both the store and the
    topic accept, and 500 otherwise. *)
Theorem ingestor_always_responds (e : env) (req_body : jsValue) (w : world) :
  ∃ (r : response) (w' : world),
    Ingestor.handler e req_body w = (Responded r, w')
    ∧ (status r = 400%Z ↔ Ingestor.missing_required req_body = true)
    ∧ (status r = 200%Z ↔
       Ingestor.missing_required req_body = false
       ∧ (∃ id, (collection_add "rawReports" (Ingestor.stamped req_body) e w).1 = Ok id)
       ∧ (∃ messageId, publishResult e = Ok messageId))
    ∧ (status r = 400%Z ∨ status r = 200%Z ∨ status r = 500%Z).
Proof.
  unfold Ingestor.handler.
  destruct (Ingestor.missing_required req_body) eqn:Hm.
  { eexists _, _. split; [done|]. simpl.
    repeat split; try done; [by intros [? _]|by left]. }
  destruct (collection_add_cases "rawReports" (Ingestor.stamped req_body) e w)
    as [[error Hadd]|[id [_ Hadd]]]; rewrite Hadd.
  { eexists _, _. split; [done|]. simpl.
    repeat split; try done; [by intros (_ & [? ?] & _)|by right; right]. }
  set (w1 := World _ _).
  destruct (topic_publish_cases Ingestor.TOPIC_NAME
              (Ingestor.dataToPublish (Ingestor.stamped req_body) id) e w1)
    as [(error & Hres & Hpub)|(mid & Hres & Hpub)]; rewrite Hpub.
  - eexists _, _. split; [done|]. simpl.
    repeat split; try done; [|by right; right].
    intros (_ & _ & [mid Hmid]). congruence.
  - eexists _, _. split; [done|]. simpl.
    repeat split; try done; eauto.
Qed.

(** The three worlds the Ingestor can leave behind. *)
Lemma ingestor_world (e : env) (req_body : jsValue) (w : world) :
  (Ingestor.handler e req_body w).2 = w
  ∨ ∃ (id : string) (report : jsObject),
      Ingestor.stamped req_body = JObj report
      ∧ collection w "rawReports" !! id = None
      ∧ let stored :=
          <["rawReports" := <[id := JObj report]> (collection w "rawReports")]>
            (firestore w) in
        (Ingestor.handler e req_body w).2 = World stored (pubsub w)
        ∨ (Ingestor.handler e req_body w).2
          = World stored
              (<[Ingestor.TOPIC_NAME :=
                   (topic w Ingestor.TOPIC_NAME
                    ++ [JObj (<["firestoreDocId" := JStr id]> report)])%list]>
                 (pubsub w)).
Proof.
  unfold Ingestor.handler.
  destruct (Ingestor.missing_required req_body) eqn:Hm; [by left|].
  destruct (validated_object _ Hm) as [o ->].
  destruct (collection_add_cases "rawReports" (Ingestor.stamped (JObj o)) e w)
    as [[error Hadd]|[id [Hfree Hadd]]]; rewrite Hadd; [by left|].
  right. exists id. eexists. split; [reflexivity|]. split; [done|]. cbv zeta.
  set (w1 := World _ _).
  destruct (topic_publish_cases Ingestor.TOPIC_NAME
              (Ingestor.dataToPublish (Ingestor.stamped (JObj o)) id) e w1)
    as [(error & _ & Hpub)|(mid & _ & Hpub)]; rewrite Hpub; [by left|by right].
Qed.

(** X3.  What the Ingestor never does: it never removes or replaces a
    stored document, never touches a collection other than [rawReports]
    or a topic other than [raw-user-reports], and adds at most one
    record and at most one message per request. *)
Theorem ingestor_preserves (e : env) (req_body : jsValue) (w : world) :
  let w' := (Ingestor.handler e req_body w).2 in
  (∀ name id doc, collection w name !! id = Some doc → collection w' name !! id = Some doc)
  ∧ (∀ name, name ≠ "rawReports" → collection w' name = collection w name)
  ∧ (∀ name, name ≠ "raw-user-reports" → topic w' name = topic w name)
  ∧ (topic w' "raw-user-reports" = topic w "raw-user-reports"
     ∨ ∃ m, topic w' "raw-user-reports" = (topic w "raw-user-reports" ++ [m])%list)
  ∧ (size (collection w' "rawReports") ≤ S (size (collection w "rawReports")))%nat.
Proof.
  cbv zeta.
  destruct (ingestor_world e req_body w) as [->|(id & report & _ & Hfree & [-> | ->])].
  - repeat split; try done; [by left|lia].
  - split; [|split; [|split; [|split]]].
    + intros name i doc Hdoc. destruct (decide (name = "rawReports")) as [->|Hne].
      * rewrite collection_insert, lookup_insert_ne; [done|congruence].
      * by rewrite collection_other.
    + intros name Hne. by rewrite collection_other.
    + done.
    + by left.
    + rewrite collection_insert, map_size_insert_None; [lia|done].
  - split; [|split; [|split; [|split]]].
    + intros name i doc Hdoc. destruct (decide (name = "rawReports")) as [->|Hne].
      * rewrite collection_insert, lookup_insert_ne; [done|congruence].
      * by rewrite collection_other.
    + intros name Hne. by rewrite collection_other.
    + intros name Hne. by rewrite topic_other.
    + right. eexists. apply topic_insert.
    + rewrite collection_insert, map_size_insert_None; [lia|done].
Qed.

(** X4.  A message on [raw-user-reports] is published only after its
    record is stored: whenever a request adds a message, the message
    carries under [firestoreDocId] the identifier of a record that the
    same request added to [rawReports], and agrees with that record on
    every other field. *)
Theorem ingestor_message_has_record (e : env) (req_body : jsValue) (w : world)
    (m : jsValue) :
  let w' := (Ingestor.handler e req_body w).2 in
  topic w' "raw-user-reports" = (topic w "raw-user-reports" ++ [m])%list →
  ∃ (id : string) (report payload : jsObject),
    m = JObj payload
    ∧ payload !! "firestoreDocId" = Some (JStr id)
    ∧ (∀ k, k ≠ "firestoreDocId" → payload !! k = report !! k)
    ∧ collection w "rawReports" !! id = None
    ∧ collection w' "rawReports" !! id = Some (JObj report).
Proof.
  cbv zeta. intros Htopic.
  assert (∀ l : list jsValue, l ≠ (l ++ [m])%list) as Hgrow.
  { intros l Hl. apply (f_equal length) in Hl. rewrite length_app in Hl. simpl in Hl. lia. }
  destruct (ingestor_world e req_body w) as [Hw|(id & report & _ & Hfree & [Hw|Hw])];
    rewrite Hw in Htopic |- *.
  - by apply Hgrow in Htopic.
  - by apply Hgrow in Htopic.
  - rewrite topic_insert in Htopic. apply app_inv_head in Htopic as [= <-].
    exists id, report. eexists. split; [done|]. split; [by rewrite lookup_insert_eq|].
    split; [by intros k Hk; rewrite lookup_insert_ne|]. split; [done|].
    by rewrite collection_insert, lookup_insert_eq.
Qed.

Lemma ingestor_message_has_record_witness :
  ∃ (id : string) (report payload : jsObject),
    payload !! "firestoreDocId" = Some (JStr id)
    ∧ report !! "firestoreDocId" = Some (JStr "forged")
    ∧ collection (Ingestor.handler sample_env
                    (JObj {[ "description" := JStr "Flood on 5th Ave";
                             "location" := JObj ∅;
                             "reportedBy" := JStr "user1";
                             "firestoreDocId" := JStr "forged" ]})
                    sample_world).2 "rawReports" !! id
      = Some (JObj report).
Proof.
  destruct (ingestor_message_has_record sample_env
              (JObj {[ "description" := JStr "Flood on 5th Ave";
                       "location" := JObj ∅;
                       "reportedBy" := JStr "user1";
                       "firestoreDocId" := JStr "forged" ]})
              sample_world
              (JObj (<["firestoreDocId" := JStr "Zk3vQ9"]>
                    (<["status" := JStr "raw_ingested"]>
                    (<["ingestedAt" := JServerTimestamp]>
                    {[ "description" := JStr "Flood on 5th Ave";
                       "location" := JObj ∅;
                       "reportedBy" := JStr "user1";
                       "firestoreDocId" := JStr "forged" ]})))))
    as (id & report & payload & Hm & Hid & Hsame & _ & Hstored); [reflexivity|].
  exists id, report, payload. split; [exact Hid|]. split; [|exact Hstored].
  assert (id = "Zk3vQ9") as ->.
  { injection Hm as <-. rewrite lookup_insert_eq in Hid. by injection Hid. }
  vm_compute in Hstored. by injection Hstored as <-.
Defined.

(** X5.  Only an object passes the Ingestor's check: an array, a string,
    a number or a boolean as body is answered 400 and nothing is written
    or published. *)
Theorem ingestor_rejects_non_object (e : env) (req_body : jsValue) (w : world) :
  (∀ o, req_body ≠ JObj o) →
  Ingestor.handler e req_body w = (Responded Ingestor.bad_request, w).
Proof.
  intros Hno. apply ingestor_rejects.
  destruct (Ingestor.missing_required req_body) eqn:Hm; [done|].
  destruct (validated_object _ Hm) as [o ->]. by destruct (Hno o).
Qed.

Lemma ingestor_rejects_non_object_witness :
  Ingestor.handler sample_env
    (JArr [JStr "Flood on 5th Ave"; JObj ∅; JStr "user1"]) sample_world
  = (Responded Ingestor.bad_request, sample_world).
Proof. apply ingestor_rejects_non_object. intros o. discriminate. Defined.

(** ** The Processor *)

Lemma processor_run B J (e : env) (req_body incidentData : jsValue) (w : world)
    (out : jsObject) :
  malformed req_body = false →
  decode B J (message_data req_body) = Ok incidentData →
  Processor.processedIncident incidentData = Ok out →
  Processor.handler B J e req_body w
  = match topic_publish Processor.PROCESSED_EVENTS_TOPIC (JObj out) e w with
    | (Ok _, w1) =>
      (Responded (Response 200 (Text "Message processed and published.")), w1)
    | (Throw _, w1) =>
      (Responded (Response 500
         (Text "Internal Server Error: Failed to publish processed message.")), w1)
    end.
Proof. intros Hm Hd Hp. unfold Processor.handler. by rewrite Hm, Hd, Hp. Qed.

(** X6.  When the topic refuses the processed message, the Processor
    answers 500 and leaves the store and the topics as they were. *)
Theorem processor_publish_failure
    (Buffer_from_base64_utf8 : jsValue → result string)
    (JSON_parse : string → result jsValue)
    (e : env) (req_body incidentData : jsValue) (w : world) (out : jsObject)
    (error : jsError) :
  malformed req_body = false →
  decode Buffer_from_base64_utf8 JSON_parse (message_data req_body) = Ok incidentData →
  Processor.processedIncident incidentData = Ok out →
  publishResult e = Throw error →
  Processor.handler Buffer_from_base64_utf8 JSON_parse e req_body w
  = (Responded (Response 500
       (Text "Internal Server Error: Failed to publish processed message.")), w).
Proof.
  intros Hm Hd Hp He. rewrite (processor_run _ _ e _ _ w _ Hm Hd Hp).
  unfold topic_publish. by rewrite He.
Qed.

Lemma processor_publish_failure_witness :
  Processor.handler sample_base64 sample_JSON_parse
    (Env "Zk3vQ9" None (Throw (Error "DEADLINE_EXCEEDED")) "t")
    (push "eyJ0eXBlIjoiZmlyZSJ9") sample_world
  = (Responded (Response 500
       (Text "Internal Server Error: Failed to publish processed message.")),
     sample_world).
Proof.
  destruct (Processor.processedIncident (JObj {[ "type" := JStr "fire" ]}))
    as [out|] eqn:Hout; [|discriminate].
  apply (processor_publish_failure sample_base64 sample_JSON_parse
           (Env "Zk3vQ9" None (Throw (Error "DEADLINE_EXCEEDED")) "t")
           (push "eyJ0eXBlIjoiZmlyZSJ9") (JObj {[ "type" := JStr "fire" ]})
           sample_world out (Error "DEADLINE_EXCEEDED"));
    [reflexivity|reflexivity|exact Hout|reflexivity].
Defined.

(** X7.  When the topic acknowledges, the Processor answers 200 with a
    fixed text (the message id is not returned), and the only change is
    one message, the processed record, at the end of [processed-events]. *)
Theorem processor_success
    (Buffer_from_base64_utf8 : jsValue → result string)
    (JSON_parse : string → result jsValue)
    (e : env) (req_body incidentData : jsValue) (w : world) (out : jsObject)
    (messageId : string) :
  malformed req_body = false →
  decode Buffer_from_base64_utf8 JSON_parse (message_data req_body) = Ok incidentData →
  Processor.processedIncident incidentData = Ok out →
  publishResult e = Ok messageId →
  Processor.handler Buffer_from_base64_utf8 JSON_parse e req_body w
  = (Responded (Response 200 (Text "Message processed and published.")),
     World (firestore w)
           (<["processed-events" := (topic w "processed-events" ++ [JObj out])%list]>
              (pubsub w))).
Proof.
  intros Hm Hd Hp He. rewrite (processor_run _ _ e _ _ w _ Hm Hd Hp).
  unfold topic_publish. by rewrite He.
Qed.

Lemma processor_success_witness :
  ∃ out : jsObject,
    Processor.handler sample_base64 sample_JSON_parse sample_env
      (push "eyJ0eXBlIjoiZmlyZSJ9") sample_world
    = (Responded (Response 200 (Text "Message processed and published.")),
       World (firestore sample_world)
             (<["processed-events" := [JObj out]]> (pubsub sample_world)))
    ∧ out !! "eventType" = Some (JStr "fire").
Proof.
  destruct (Processor.processedIncident (JObj {[ "type" := JStr "fire" ]}))
    as [out|] eqn:Hout; [|discriminate].
  exists out. split.
  - apply (processor_success sample_base64 sample_JSON_parse sample_env
             (push "eyJ0eXBlIjoiZmlyZSJ9") (JObj {[ "type" := JStr "fire" ]})
             sample_world out "7340921");
      [reflexivity|reflexivity|exact Hout|reflexivity].
  - injection Hout as <-. reflexivity.
Defined.

Lemma summary_Throw (incidentData : jsValue) :
  nullish incidentData = false →
  truthy (prop incidentData "description") = true →
  (∀ s, prop incidentData "description" ≠ JStr s) →
  Processor.summary incidentData
  = Throw (TypeError "incidentData.description.substring is not a function").
Proof.
  intros Hn Ht Hs. unfold Processor.summary. rewrite getProp_prop by done. simpl.
  rewrite Ht. destruct (prop incidentData "description"); try done.
  by destruct (Hs s).
Qed.

Lemma processedIncident_Throw (incidentData : jsValue) :
  (∃ m, Processor.processedIncident incidentData = Throw (TypeError m))
  ↔ nullish incidentData = true
    ∨ (truthy (prop incidentData "description") = true
       ∧ ∀ s, prop incidentData "description" ≠ JStr s).
Proof.
  split.
  - intros [m Hthrow]. destruct (nullish incidentData) eqn:Hn; [by left|right].
    destruct (truthy (prop incidentData "description")) eqn:Ht.
    + split; [done|]. intros s Hs.
      destruct (processedIncident_defined incidentData Hn) as [out Hout]; [by eauto|].
      congruence.
    + destruct (processedIncident_defined incidentData Hn) as [out Hout]; [by left|].
      congruence.
  - unfold Processor.processedIncident. intros [Hn|[Ht Hs]].
    + destruct (getProp_nullish incidentData "type" Hn) as [m ->]. by eexists.
    + destruct (nullish incidentData) eqn:Hn.
      * destruct (getProp_nullish incidentData "type" Hn) as [m ->]. by eexists.
      * rewrite !getProp_prop by done. simpl.
        rewrite (summary_Throw _ Hn Ht Hs). simpl. by eexists.
Qed.

Lemma processedIncident_Throw_TypeError (incidentData : jsValue) (error : jsError) :
  Processor.processedIncident incidentData = Throw error → ∃ m, error = TypeError m.
Proof.
  unfold Processor.processedIncident. destruct (nullish incidentData) eqn:Hn.
  { destruct (getProp_nullish incidentData "type" Hn) as [m ->].
    intros [= <-]. by eexists. }
  rewrite !getProp_prop by done. simpl. unfold Processor.summary.
  rewrite getProp_prop by done. simpl.
  destruct (truthy (prop incidentData "description")); [|done].
  destruct (prop incidentData "description"); simpl; try done;
    intros [= <-]; by eexists.
Qed.

(** X8.  The Processor lets an exception escape, and sends no response,
    exactly when the decoded payload is [null], or has a truthy
    description that is not a string (a number, [true], an array, an
    object).  The exception is a [TypeError] and nothing is published. *)
Theorem processor_rejects
    (Buffer_from_base64_utf8 : jsValue → result string)
    (JSON_parse : string → result jsValue)
    (e : env) (req_body incidentData : jsValue) (w : world) :
  malformed req_body = false →
  decode Buffer_from_base64_utf8 JSON_parse (message_data req_body) = Ok incidentData →
  ((∃ m, Processor.handler Buffer_from_base64_utf8 JSON_parse e req_body w
         = (Rejected (TypeError m), w))
   ↔ nullish incidentData = true
     ∨ (truthy (prop incidentData "description") = true
        ∧ ∀ s, prop incidentData "description" ≠ JStr s))
  ∧ (∀ error w',
       Processor.handler Buffer_from_base64_utf8 JSON_parse e req_body w
       = (Rejected error, w') →
       w' = w ∧ ∃ m, error = TypeError m).
Proof.
  intros Hm Hd.
  assert (∀ error w',
            Processor.handler Buffer_from_base64_utf8 JSON_parse e req_body w
            = (Rejected error, w') →
            w' = w ∧ Processor.processedIncident incidentData = Throw error) as Hinv.
  { intros error w'. unfold Processor.handler. rewrite Hm, Hd.
    destruct (Processor.processedIncident incidentData) as [out|err].
    - by destruct (topic_publish _ _ e w) as [[mid|err] w1].
    - by intros [= <- <-]. }
  split.
  - rewrite <- processedIncident_Throw. split.
    + intros [m Hrun]. exists m. by apply Hinv in Hrun as [_ ?].
    + intros [m Hthrow]. exists m. unfold Processor.handler.
      by rewrite Hm, Hd, Hthrow.
  - intros error w' Hrun. apply Hinv in Hrun as [-> Hthrow]. split; [done|].
    by apply processedIncident_Throw_TypeError in Hthrow.
Qed.

Lemma processor_rejects_witness :
  ∃ m, Processor.handler sample_base64 sample_JSON_parse sample_env
         (push "bnVsbA==") sample_world
       = (Rejected (TypeError m), sample_world).
Proof.
  destruct (processor_rejects sample_base64 sample_JSON_parse sample_env
              (push "bnVsbA==") JNull sample_world) as [[_ Hrej] _];
    [reflexivity..|].
  apply Hrej. left. reflexivity.
Defined.

(** X9.  Processing is idempotent on its own output: the record built
    from a processed record is that record again. *)
Theorem processor_idempotent (incidentData : jsValue) (out : jsObject) :
  Processor.processedIncident incidentData = Ok out →
  Processor.processedIncident (JObj out) = Ok out.
Proof.
  intros Hp. destruct (processedIncident_Ok _ _ Hp) as (Hn & text & Ht & Hout).
  assert (prop (JObj out) "description" = prop incidentData "description") as Hdesc.
  { unfold prop at 1. simpl. rewrite Hout. by read_field. }
  assert (prop (JObj out) "type" = prop incidentData "type") as Htype.
  { unfold prop at 1. simpl. rewrite Hout. by read_field. }
  assert (prop (JObj out) "predictedImpact"
          = js_or (prop incidentData "predictedImpact") Processor.default_impact) as Himp.
  { unfold prop at 1. simpl. rewrite Hout. by read_field. }
  assert (Processor.summary (JObj out) = Ok text) as Ht'.
  { rewrite <- Ht. unfold Processor.summary.
    rewrite !getProp_prop by done. by rewrite Hdesc. }
  unfold Processor.processedIncident. rewrite !getProp_prop by done. simpl.
  rewrite Ht'. simpl. f_equal. rewrite Htype, Himp.
  assert (js_or (js_or (prop incidentData "predictedImpact") Processor.default_impact)
                Processor.default_impact
          = js_or (prop incidentData "predictedImpact") Processor.default_impact) as ->.
  { unfold js_or. by destruct (truthy (prop incidentData "predictedImpact")) eqn:E; rewrite ?E. }
  rewrite (insert_id out "status" (JStr "processed")) by (rewrite Hout; by read_field).
  rewrite (insert_id out "processedTimestamp" JServerTimestamp)
    by (rewrite Hout; by read_field).
  rewrite (insert_id out "eventType") by (rewrite Hout; by read_field).
  rewrite (insert_id out "summary" text) by (rewrite Hout; by read_field).
  rewrite (insert_id out "predictedImpact") by (rewrite Hout; by read_field).
  apply insert_id. rewrite Hout. by read_field.
Qed.

Lemma processor_idempotent_witness :
  ∃ out : jsObject,
    Processor.processedIncident
      (JObj {[ "description" := JStr "Smoke"; "status" := JStr "raw_ingested" ]}) = Ok out
    ∧ Processor.processedIncident (JObj out) = Ok out.
Proof.
  destruct (Processor.processedIncident
              (JObj {[ "description" := JStr "Smoke"; "status" := JStr "raw_ingested" ]}))
    as [out|] eqn:Hout; [|discriminate].
  exists out. split; [reflexivity|].
  exact (processor_idempotent _ out Hout).
Defined.

(** X10.  Whatever the input holds under [status], [processedTimestamp]
    and [agentResponsible], the output holds ['processed'], the
    server-timestamp sentinel and the fixed label; and when the
    description is absent or falsy (the empty string, 0, [false],
    [null]) the summary is ['Incident reported.']. *)
Theorem processor_constant_fields (incidentData : jsValue) (out : jsObject) :
  Processor.processedIncident incidentData = Ok out →
  out !! "status" = Some (JStr "processed")
  ∧ out !! "processedTimestamp" = Some JServerTimestamp
  ∧ out !! "agentResponsible"
    = Some (JStr "User Report Processing (Cloud Run Placeholder)")
  ∧ (truthy (prop incidentData "description") = false →
     out !! "summary" = Some (JStr "Incident reported.")).
Proof.
  intros Hp. destruct (processedIncident_Ok _ _ Hp) as (Hn & text & Ht & ->).
  repeat split; try by read_field.
  intros Hfalsy. read_field. f_equal.
  unfold Processor.summary in Ht. rewrite getProp_prop in Ht by done.
  simpl in Ht. rewrite Hfalsy in Ht. by injection Ht.
Qed.

Lemma processor_constant_fields_witness :
  ∃ out : jsObject,
    Processor.processedIncident
      (JObj {[ "description" := JNum zero; "status" := JStr "raw_ingested";
               "agentResponsible" := JStr "someone" ]}) = Ok out
    ∧ out !! "status" = Some (JStr "processed")
    ∧ out !! "summary" = Some (JStr "Incident reported.").
Proof.
  destruct (Processor.processedIncident
              (JObj {[ "description" := JNum zero; "status" := JStr "raw_ingested";
                       "agentResponsible" := JStr "someone" ]}))
    as [out|] eqn:Hout; [|discriminate].
  destruct (processor_constant_fields _ out Hout) as (Hst & _ & _ & Hsum).
  exists out. split; [reflexivity|]. split; [exact Hst|].
  apply Hsum. reflexivity.
Defined.

(** X11.  Every summary the Processor writes is a string of at least 14
    and at most 113 characters that starts with ["Incident"]. *)
Theorem processor_summary_bounds (incidentData : jsValue) (out : jsObject) :
  Processor.processedIncident incidentData = Ok out →
  ∃ t : string,
    out !! "summary" = Some (JStr t)
    ∧ (14 ≤ String.length t ≤ 113)%nat
    ∧ String.prefix "Incident" t = true.
Proof.
  intros Hp. destruct (processedIncident_Ok _ _ Hp) as (Hn & text & Ht & ->).
  unfold Processor.summary in Ht. rewrite getProp_prop in Ht by done. simpl in Ht.
  destruct (truthy (prop incidentData "description")) eqn:Htruthy.
  - destruct (prop incidentData "description") as [| | | |s| | | |]; try done.
    injection Ht as <-. eexists. split; [by read_field|].
    split; [|done].
    rewrite !length_append, first100_length. simpl.
    destruct s as [|c s]; [done|]. simpl. lia.
  - injection Ht as <-. eexists. split; [by read_field|]. split; [simpl; lia|done].
Qed.

Lemma processor_summary_bounds_witness :
  ∃ t : string,
    (Processor.processedIncident long_report ≫= λ out, Ok (out !! "summary"))
    = Ok (Some (JStr t))
    ∧ (14 ≤ String.length t ≤ 113)%nat.
Proof.
  destruct (Processor.processedIncident long_report) as [out|] eqn:Hout; [|discriminate].
  destruct (processor_summary_bounds long_report out Hout) as (t & Hsum & Hlen & _).
  exists t. split; [|exact Hlen]. simpl. by rewrite Hsum.
Defined.

(** X12.  What the Processor never does: it never touches the document
    store, never touches a topic other than [processed-events], and
    appends at most one message per delivery. *)
Theorem processor_preserves
    (Buffer_from_base64_utf8 : jsValue → result string)
    (JSON_parse : string → result jsValue)
    (e : env) (req_body : jsValue) (w : world) :
  let w' := (Processor.handler Buffer_from_base64_utf8 JSON_parse e req_body w).2 in
  firestore w' = firestore w
  ∧ (∀ name, name ≠ "processed-events" → topic w' name = topic w name)
  ∧ (topic w' "processed-events" = topic w "processed-events"
     ∨ ∃ m, topic w' "processed-events" = (topic w "processed-events" ++ [m])%list).
Proof.
  cbv zeta.
  assert (firestore w = firestore w
          ∧ (∀ name, name ≠ "processed-events" → topic w name = topic w name)
          ∧ (topic w "processed-events" = topic w "processed-events"
             ∨ ∃ m, topic w "processed-events"
                    = (topic w "processed-events" ++ [m])%list)) as Hsame.
  { split; [done|]. split; [done|by left]. }
  unfold Processor.handler.
  destruct (malformed req_body); [exact Hsame|].
  destruct (decode _ _ _) as [incidentData|err]; [|exact Hsame].
  destruct (Processor.processedIncident incidentData) as [out|err]; [|exact Hsame].
  destruct (topic_publish_cases Processor.PROCESSED_EVENTS_TOPIC (JObj out) e w)
    as [(error & _ & ->)|(mid & _ & ->)]; [exact Hsame|].
  simpl. split; [done|]. split.
  - intros name Hne. by rewrite topic_other.
  - right. eexists. apply topic_insert.
Qed.

(** X13.  No deduplication in the Processor: the same push request
    delivered twice, each publish acknowledged, leaves the processed
    record twice at the end of [processed-events]. *)
Theorem processor_redelivery
    (Buffer_from_base64_utf8 : jsValue → result string)
    (JSON_parse : string → result jsValue)
    (e1 e2 : env) (req_body incidentData : jsValue) (w : world) (out : jsObject)
    (messageId1 messageId2 : string) :
  malformed req_body = false →
  decode Buffer_from_base64_utf8 JSON_parse (message_data req_body) = Ok incidentData →
  Processor.processedIncident incidentData = Ok out →
  publishResult e1 = Ok messageId1 →
  publishResult e2 = Ok messageId2 →
  let w1 := (Processor.handler Buffer_from_base64_utf8 JSON_parse e1 req_body w).2 in
  let w2 := (Processor.handler Buffer_from_base64_utf8 JSON_parse e2 req_body w1).2 in
  topic w2 "processed-events"
  = (topic w "processed-events" ++ [JObj out; JObj out])%list.
Proof.
  intros Hm Hd Hp He1 He2. cbv zeta.
  rewrite (processor_run _ _ e1 _ _ w _ Hm Hd Hp).
  unfold topic_publish at 1. rewrite He1. simpl.
  rewrite (processor_run _ _ e2 _ _ _ _ Hm Hd Hp).
  unfold topic_publish at 1. rewrite He2. simpl.
  unfold topic at 1. simpl. rewrite lookup_insert_eq. simpl.
  rewrite topic_insert. by rewrite <- app_assoc.
Qed.

Lemma processor_redelivery_witness :
  ∃ out : jsObject,
    topic (Processor.handler sample_base64 sample_JSON_parse
             (Env "b" None (Ok "2") "t2") (push "eyJ0eXBlIjoiZmlyZSJ9")
             (Processor.handler sample_base64 sample_JSON_parse
                (Env "a" None (Ok "1") "t1") (push "eyJ0eXBlIjoiZmlyZSJ9")
                sample_world).2).2
          "processed-events"
    = [JObj out; JObj out].
Proof.
  destruct (Processor.processedIncident (JObj {[ "type" := JStr "fire" ]}))
    as [out|] eqn:Hout; [|discriminate].
  exists out.
  apply (processor_redelivery sample_base64 sample_JSON_parse
           (Env "a" None (Ok "1") "t1") (Env "b" None (Ok "2") "t2")
           (push "eyJ0eXBlIjoiZmlyZSJ9") (JObj {[ "type" := JStr "fire" ]})
           sample_world out "1" "2");
    [reflexivity|reflexivity|exact Hout|reflexivity|reflexivity].
Defined.

(** X14.  A report can pass the Ingestor and still make the Processor
    throw: the Ingestor only asks for a truthy description, the
    Processor calls [substring] on it.  If the report's description is
    not a string and reaches the Processor unchanged, the Processor's
    promise rejects with a [TypeError] and nothing is published. *)
Theorem accepted_report_rejected_downstream
    (Buffer_from_base64_utf8 : jsValue → result string)
    (JSON_parse : string → result jsValue)
    (e : env) (report req_body incidentData : jsValue) (w : world) :
  Ingestor.missing_required report = false →
  (∀ s, prop report "description" ≠ JStr s) →
  malformed req_body = false →
  decode Buffer_from_base64_utf8 JSON_parse (message_data req_body) = Ok incidentData →
  prop incidentData "description" = prop report "description" →
  ∃ m, Processor.handler Buffer_from_base64_utf8 JSON_parse e req_body w
       = (Rejected (TypeError m), w).
Proof.
  intros Hvalid Hnot Hm Hd Hsame.
  apply missing_required_false in Hvalid as (Htruthy & _).
  destruct (proj2 (processedIncident_Throw incidentData)) as [m Hthrow].
  { right. rewrite Hsame. by split. }
  exists m. unfold Processor.handler. by rewrite Hm, Hd, Hthrow.
Qed.

Lemma accepted_report_rejected_downstream_witness :
  let report := JObj {[ "description" := JNum (integer 5);
                        "location" := JStr "5th Ave";
                        "reportedBy" := JStr "user1" ]} in
  (Ingestor.handler sample_env report sample_world).1
  = Responded (Ingestor.accepted sample_env "7340921" "Zk3vQ9")
  ∧ ∃ m, Processor.handler sample_base64 (parses_to report) sample_env
           (push "e30=") sample_world
         = (Rejected (TypeError m), sample_world).
Proof.
  cbv zeta. split; [reflexivity|].
  apply (accepted_report_rejected_downstream sample_base64 _ sample_env
           (JObj {[ "description" := JNum (integer 5);
                    "location" := JStr "5th Ave";
                    "reportedBy" := JStr "user1" ]})
           (push "e30=")
           (JObj {[ "description" := JNum (integer 5);
                    "location" := JStr "5th Ave";
                    "reportedBy" := JStr "user1" ]}));
    try reflexivity.
  intros s. discriminate.
Defined.

(** ** The Writer *)

Lemma writer_run B J G (e : env) (req_body eventData : jsValue) (w : world)
    (doc : jsObject) :
  malformed req_body = false →
  decode B J (message_data req_body) = Ok eventData →
  Writer.dataToSave G eventData = Ok doc →
  Writer.handler B J G e req_body w
  = match collection_add "events" (JObj doc) e w with
    | (Ok _, w1) => (Responded (Response 200 (Text "Event written to Firestore.")), w1)
    | (Throw _, w1) =>
      (Responded (Response 500
         (Text "Internal Server Error: Failed to write event to Firestore.")), w1)
    end.
Proof. intros Hm Hd Hs. unfold Writer.handler. by rewrite Hm, Hd, Hs. Qed.

(** X15.  When the store refuses the document, the Writer answers 500
    and leaves the store and the topics as they were. *)
Theorem writer_store_failure
    (Buffer_from_base64_utf8 : jsValue → result string)
    (JSON_parse : string → result jsValue)
    (GeoPoint_accepts : number → number → bool)
    (e : env) (req_body eventData : jsValue) (w : world) (doc : jsObject)
    (error : jsError) :
  malformed req_body = false →
  decode Buffer_from_base64_utf8 JSON_parse (message_data req_body) = Ok eventData →
  Writer.dataToSave GeoPoint_accepts eventData = Ok doc →
  (collection_add "events" (JObj doc) e w).1 = Throw error →
  Writer.handler Buffer_from_base64_utf8 JSON_parse GeoPoint_accepts e req_body w
  = (Responded (Response 500
       (Text "Internal Server Error: Failed to write event to Firestore.")), w).
Proof.
  intros Hm Hd Hs Hadd. rewrite (writer_run _ _ _ e _ _ w _ Hm Hd Hs).
  by rewrite (collection_add_Throw _ _ _ _ _ Hadd).
Qed.

Lemma writer_store_failure_witness :
  Writer.handler sample_base64 sample_JSON_parse sample_GeoPoint_accepts
    (Env "Zk3vQ9" (Some (Error "UNAVAILABLE")) (Ok "1") "t")
    (push "e30=") sample_world
  = (Responded (Response 500
       (Text "Internal Server Error: Failed to write event to Firestore.")),
     sample_world).
Proof.
  destruct (Writer.dataToSave sample_GeoPoint_accepts (JObj ∅)) as [doc|] eqn:Hdoc;
    [|discriminate].
  apply (writer_store_failure sample_base64 sample_JSON_parse sample_GeoPoint_accepts
           (Env "Zk3vQ9" (Some (Error "UNAVAILABLE")) (Ok "1") "t")
           (push "e30=") (JObj ∅) sample_world doc (Error "UNAVAILABLE"));
    [reflexivity|reflexivity|exact Hdoc|reflexivity].
Defined.

(** X16.  When the store accepts, the Writer answers 200 with a fixed
    text, and the only change is one new document in [events], under an
    identifier that was not in use. *)
Theorem writer_success
    (Buffer_from_base64_utf8 : jsValue → result string)
    (JSON_parse : string → result jsValue)
    (GeoPoint_accepts : number → number → bool)
    (e : env) (req_body eventData : jsValue) (w : world) (doc : jsObject)
    (id : string) :
  malformed req_body = false →
  decode Buffer_from_base64_utf8 JSON_parse (message_data req_body) = Ok eventData →
  Writer.dataToSave GeoPoint_accepts eventData = Ok doc →
  (collection_add "events" (JObj doc) e w).1 = Ok id →
  collection w "events" !! id = None
  ∧ Writer.handler Buffer_from_base64_utf8 JSON_parse GeoPoint_accepts e req_body w
    = (Responded (Response 200 (Text "Event written to Firestore.")),
       World (<["events" := <[id := JObj doc]> (collection w "events")]> (firestore w))
             (pubsub w)).
Proof.
  intros Hm Hd Hs Hadd. apply collection_add_Ok in Hadd as (-> & Hfree & Hadd).
  split; [done|]. rewrite (writer_run _ _ _ e _ _ w _ Hm Hd Hs). by rewrite Hadd.
Qed.

Lemma writer_success_witness :
  ∃ doc : jsObject,
    Writer.handler sample_base64 sample_JSON_parse sample_GeoPoint_accepts sample_env
      (push "e30=") sample_world
    = (Responded (Response 200 (Text "Event written to Firestore.")),
       World (<["events" := {[ "Zk3vQ9" := JObj doc ]}]> (firestore sample_world))
             (pubsub sample_world))
    ∧ doc !! "location" = Some JNull.
Proof.
  destruct (Writer.dataToSave sample_GeoPoint_accepts (JObj ∅)) as [doc|] eqn:Hdoc;
    [|discriminate].
  exists doc. split.
  - apply (writer_success sample_base64 sample_JSON_parse sample_GeoPoint_accepts
             sample_env (push "e30=") (JObj ∅) sample_world doc "Zk3vQ9");
      [reflexivity|reflexivity|exact Hdoc|reflexivity].
  - injection Hdoc as <-. reflexivity.
Defined.

Lemma firestoreLocation_Ok G (location fl : jsValue) :
  Writer.firestoreLocation G location = Ok fl →
  fl = JNull ∨ ∃ x y, fl = JGeoPoint x y.
Proof.
  unfold Writer.firestoreLocation, Writer.new_GeoPoint.
  destruct (_ && _ && _); [|by intros [= <-]; left].
  destruct (prop location "latitude"); try done.
  destruct (prop location "longitude"); try done.
  destruct (G _ _); [|done]. intros [= <-]. right. eauto.
Qed.

Lemma dataToSave_Ok G (eventData : jsValue) (doc : jsObject) :
  Writer.dataToSave G eventData = Ok doc →
  nullish eventData = false
  ∧ ∃ fl,
      Writer.firestoreLocation G (prop eventData "location") = Ok fl
      ∧ doc = <["firestoreCreatedAt" := JServerTimestamp]>
              (<["location" := js_or fl (js_or (prop eventData "location") JNull)]>
              (delete "location" (ownProps eventData))).
Proof.
  unfold Writer.dataToSave. destruct (nullish eventData); [done|].
  destruct (Writer.firestoreLocation G (prop eventData "location")) as [fl|err];
    simpl; [|done].
  intros [= <-]. eauto.
Qed.

(** X17.  The document the Writer builds has the fields of the decoded
    event together with [location] and [firestoreCreatedAt], and no
    others.  [firestoreCreatedAt] is the server-timestamp sentinel, even
    if the event had such a field; [location] is always present, and is
    [null] or a truthy value, never [undefined]; every other field keeps
    its value. *)
Theorem writer_frame (GeoPoint_accepts : number → number → bool)
    (eventData : jsValue) (doc : jsObject) :
  Writer.dataToSave GeoPoint_accepts eventData = Ok doc →
  dom doc = dom (ownProps eventData) ∪ {[ "location"; "firestoreCreatedAt" ]}
  ∧ (∀ k, k ≠ "location" → k ≠ "firestoreCreatedAt" →
          doc !! k = ownProps eventData !! k)
  ∧ doc !! "firestoreCreatedAt" = Some JServerTimestamp
  ∧ ∃ stored, doc !! "location" = Some stored
              ∧ (stored = JNull ∨ truthy stored = true).
Proof.
  intros Hs. destruct (dataToSave_Ok _ _ _ Hs) as (_ & fl & Hfl & ->).
  split; [|split; [|split]].
  - rewrite !dom_insert_L, dom_delete_L. apply set_eq. intros k. set_unfold.
    destruct (decide (k = "location")); tauto.
  - intros k Hk1 Hk2. by rewrite !lookup_insert_ne, lookup_delete_ne.
  - by read_field.
  - eexists. split; [by read_field|].
    apply firestoreLocation_Ok in Hfl as [->|(x & y & ->)]; [|by right].
    unfold js_or. simpl.
    destruct (truthy (prop eventData "location")) eqn:Ht; [by right|by left].
Qed.

Lemma writer_frame_witness :
  ∃ doc : jsObject,
    Writer.dataToSave sample_GeoPoint_accepts
      (JObj {[ "status" := JStr "processed"; "firestoreCreatedAt" := JStr "yesterday" ]})
    = Ok doc
    ∧ dom doc = {[ "status"; "location"; "firestoreCreatedAt" ]}
    ∧ doc !! "status" = Some (JStr "processed")
    ∧ doc !! "firestoreCreatedAt" = Some JServerTimestamp.
Proof.
  destruct (Writer.dataToSave sample_GeoPoint_accepts
              (JObj {[ "status" := JStr "processed";
                       "firestoreCreatedAt" := JStr "yesterday" ]}))
    as [doc|] eqn:Hdoc; [|discriminate].
  destruct (writer_frame sample_GeoPoint_accepts _ doc Hdoc)
    as (Hdom & Hkeep & Hts & _).
  exists doc. split; [reflexivity|]. split; [|split; [|exact Hts]].
  - rewrite Hdom. simpl. rewrite dom_insert_L, dom_singleton_L.
    apply set_eq. intros k. set_unfold. tauto.
  - by rewrite Hkeep.
Defined.

Lemma dataToSave_Throw G (eventData : jsValue) :
  (∃ error, Writer.dataToSave G eventData = Throw error)
  ↔ nullish eventData = true
    ∨ ∃ x y, prop (prop eventData "location") "latitude" = JNum x
             ∧ prop (prop eventData "location") "longitude" = JNum y
             ∧ G x y = false.
Proof.
  unfold Writer.dataToSave. destruct (nullish eventData) eqn:Hn.
  { split; [by left|]. intros _. by eexists. }
  unfold Writer.firestoreLocation, Writer.new_GeoPoint.
  set (location := prop eventData "location").
  split.
  - intros [error Hthrow]. right.
    destruct (truthy location); simpl in Hthrow; [|done].
    destruct (prop location "latitude") as [| | |x| | | | |]; simpl in Hthrow; try done.
    destruct (prop location "longitude") as [| | |y| | | | |]; simpl in Hthrow; try done.
    exists x, y. destruct (G x y); [done|by repeat split].
  - intros [Hnull|(x & y & Hlat & Hlng & Hacc)]; [done|].
    rewrite (numeric_location_truthy _ _ Hlat), Hlat, Hlng. simpl. rewrite Hacc.
    by eexists.
Qed.

(** X18.  The Writer lets an exception escape, and sends no response,
    exactly when the decoded event is [null], or its location has
    numeric [latitude] and [longitude] that the [GeoPoint] constructor
    refuses.  Nothing is written in that case. *)
Theorem writer_rejects
    (Buffer_from_base64_utf8 : jsValue → result string)
    (JSON_parse : string → result jsValue)
    (GeoPoint_accepts : number → number → bool)
    (e : env) (req_body eventData : jsValue) (w : world) :
  malformed req_body = false →
  decode Buffer_from_base64_utf8 JSON_parse (message_data req_body) = Ok eventData →
  ((∃ error,
      Writer.handler Buffer_from_base64_utf8 JSON_parse GeoPoint_accepts e req_body w
      = (Rejected error, w))
   ↔ nullish eventData = true
     ∨ ∃ x y, prop (prop eventData "location") "latitude" = JNum x
              ∧ prop (prop eventData "location") "longitude" = JNum y
              ∧ GeoPoint_accepts x y = false)
  ∧ (∀ error w',
       Writer.handler Buffer_from_base64_utf8 JSON_parse GeoPoint_accepts e req_body w
       = (Rejected error, w') → w' = w).
Proof.
  intros Hm Hd.
  assert (∀ error w',
            Writer.handler Buffer_from_base64_utf8 JSON_parse GeoPoint_accepts
              e req_body w = (Rejected error, w') →
            w' = w ∧ Writer.dataToSave GeoPoint_accepts eventData = Throw error) as Hinv.
  { intros error w'. unfold Writer.handler. rewrite Hm, Hd.
    destruct (Writer.dataToSave GeoPoint_accepts eventData) as [doc|err].
    - by destruct (collection_add _ _ e w) as [[id|err] w1].
    - by intros [= <- <-]. }
  split.
  - rewrite <- dataToSave_Throw. split.
    + intros [error Hrun]. exists error. by apply Hinv in Hrun as [_ ?].
    + intros [error Hthrow]. exists error. unfold Writer.handler.
      by rewrite Hm, Hd, Hthrow.
  - intros error w' Hrun. by apply Hinv in Hrun as [-> _].
Qed.

Lemma writer_rejects_witness :
  ∃ error,
    Writer.handler sample_base64
      (parses_to (JObj {[ "location" := JObj {[ "latitude" := JNum (integer 100);
                                               "longitude" := JNum zero ]} ]}))
      sample_GeoPoint_accepts sample_env (push "e30=") sample_world
    = (Rejected error, sample_world).
Proof.
  destruct (writer_rejects sample_base64
              (parses_to (JObj {[ "location" := JObj {[ "latitude" := JNum (integer 100);
                                                       "longitude" := JNum zero ]} ]}))
              sample_GeoPoint_accepts sample_env (push "e30=")
              (JObj {[ "location" := JObj {[ "latitude" := JNum (integer 100);
                                             "longitude" := JNum zero ]} ]})
              sample_world) as [[_ Hrej] _]; [reflexivity..|].
  apply Hrej. right. exists (integer 100), zero. repeat split.
Defined.

(** X19.  What the Writer never does: it never publishes, never touches
    a collection other than [events], never removes or replaces a
    stored document, and adds at most one document per delivery. *)
Theorem writer_preserves
    (Buffer_from_base64_utf8 : jsValue → result string)
    (JSON_parse : string → result jsValue)
    (GeoPoint_accepts : number → number → bool)
    (e : env) (req_body : jsValue) (w : world) :
  let w' :=
    (Writer.handler Buffer_from_base64_utf8 JSON_parse GeoPoint_accepts e req_body w).2 in
  pubsub w' = pubsub w
  ∧ (∀ name, name ≠ "events" → collection w' name = collection w name)
  ∧ (∀ name id doc, collection w name !! id = Some doc → collection w' name !! id = Some doc)
  ∧ (size (collection w' "events") ≤ S (size (collection w "events")))%nat.
Proof.
  cbv zeta.
  assert (pubsub w = pubsub w
          ∧ (∀ name, name ≠ "events" → collection w name = collection w name)
          ∧ (∀ name id doc, collection w name !! id = Some doc →
                            collection w name !! id = Some doc)
          ∧ (size (collection w "events") ≤ S (size (collection w "events")))%nat)
    as Hsame.
  { repeat split; try done. lia. }
  unfold Writer.handler.
  destruct (malformed req_body); [exact Hsame|].
  destruct (decode _ _ _) as [eventData|err]; [|exact Hsame].
  destruct (Writer.dataToSave GeoPoint_accepts eventData) as [doc|err]; [|exact Hsame].
  destruct (collection_add_cases "events" (JObj doc) e w)
    as [[error ->]|[id [Hfree ->]]]; [exact Hsame|].
  simpl. split; [done|]. split; [|split].
  - intros name Hne. by rewrite collection_other.
  - intros name i d Hd. destruct (decide (name = "events")) as [->|Hne].
    + rewrite collection_insert, lookup_insert_ne; [done|congruence].
    + by rewrite collection_other.
  - rewrite collection_insert, map_size_insert_None; [lia|done].
Qed.

(** X20.  No deduplication in the Writer: the same push request delivered
    twice, the store generating two different unused identifiers and
    accepting both writes, leaves two documents with the same content in
    [events]. *)
Theorem writer_redelivery
    (Buffer_from_base64_utf8 : jsValue → result string)
    (JSON_parse : string → result jsValue)
    (GeoPoint_accepts : number → number → bool)
    (e1 e2 : env) (req_body eventData : jsValue) (w : world) (doc : jsObject) :
  malformed req_body = false →
  decode Buffer_from_base64_utf8 JSON_parse (message_data req_body) = Ok eventData →
  Writer.dataToSave GeoPoint_accepts eventData = Ok doc →
  addRejects e1 = None →
  addRejects e2 = None →
  collection w "events" !! autoId e1 = None →
  collection w "events" !! autoId e2 = None →
  autoId e1 ≠ autoId e2 →
  let w1 :=
    (Writer.handler Buffer_from_base64_utf8 JSON_parse GeoPoint_accepts e1 req_body w).2 in
  let w2 :=
    (Writer.handler Buffer_from_base64_utf8 JSON_parse GeoPoint_accepts e2 req_body w1).2 in
  collection w2 "events"
  = <[autoId e2 := JObj doc]> (<[autoId e1 := JObj doc]> (collection w "events"))
  ∧ size (collection w2 "events") = S (S (size (collection w "events"))).
Proof.
  intros Hm Hd Hs Ha1 Ha2 Hf1 Hf2 Hne. cbv zeta.
  assert (∀ e w0, addRejects e = None → collection w0 "events" !! autoId e = None →
            (Writer.handler Buffer_from_base64_utf8 JSON_parse GeoPoint_accepts
               e req_body w0).2
            = World (<["events" := <[autoId e := JObj doc]> (collection w0 "events")]>
                       (firestore w0))
                    (pubsub w0)) as Hstep.
  { intros e w0 Ha Hf. rewrite (writer_run _ _ _ e _ _ w0 _ Hm Hd Hs).
    unfold collection_add. by rewrite Ha, Hf. }
  rewrite (Hstep e1 w Ha1 Hf1).
  rewrite Hstep; [|done|by rewrite collection_insert, lookup_insert_ne].
  rewrite !collection_insert. split; [done|].
  rewrite !map_size_insert_None; [done|done|by rewrite lookup_insert_ne].
Qed.

Lemma writer_redelivery_witness :
  size (collection
          (Writer.handler sample_base64 sample_JSON_parse sample_GeoPoint_accepts
             (Env "b" None (Ok "2") "t2") (push "e30=")
             (Writer.handler sample_base64 sample_JSON_parse sample_GeoPoint_accepts
                (Env "a" None (Ok "1") "t1") (push "e30=") sample_world).2).2
          "events")
  = 2.
Proof.
  destruct (Writer.dataToSave sample_GeoPoint_accepts (JObj ∅)) as [doc|] eqn:Hdoc;
    [|discriminate].
  destruct (writer_redelivery sample_base64 sample_JSON_parse sample_GeoPoint_accepts
              (Env "a" None (Ok "1") "t1") (Env "b" None (Ok "2") "t2")
              (push "e30=") (JObj ∅) sample_world doc) as [_ Hsize];
    [reflexivity|reflexivity|exact Hdoc|reflexivity|reflexivity|reflexivity
    |reflexivity|discriminate|].
  exact Hsize.
Defined.

(** ** The push envelope *)

Lemma malformed_falsy_data (req_body : jsValue) :
  malformed req_body = true ↔ truthy (message_data req_body) = false.
Proof.
  unfold malformed, message_data. split.
  - intros H. destruct (truthy req_body) eqn:Hb.
    + destruct (truthy (prop req_body "message")) eqn:Hmsg.
      * simpl in H. by apply negb_true_iff in H.
      * by rewrite (falsy_no_props _ "data" Hmsg).
    + by rewrite (falsy_no_props _ "message" Hb).
  - intros ->. simpl. by rewrite !orb_true_r.
Qed.

(** X21.  The envelope check is by truthiness and comes before any
    decoding: when [message.data] is falsy (absent, [null], [false], 0
    or the empty string), the Processor and the Writer both answer 400
    with the text for a bad envelope, whatever the decoder would have
    returned; and only then do they answer with that text. *)
Theorem push_falsy_data
    (Buffer_from_base64_utf8 : jsValue → result string)
    (JSON_parse : string → result jsValue)
    (GeoPoint_accepts : number → number → bool)
    (e : env) (req_body : jsValue) (w : world) :
  let bad_envelope :=
    Responded (Response 400 (Text "Bad Request: Invalid Pub/Sub message format.")) in
  (truthy (message_data req_body) = false ↔
   Processor.handler Buffer_from_base64_utf8 JSON_parse e req_body w = (bad_envelope, w))
  ∧ (truthy (message_data req_body) = false ↔
     Writer.handler Buffer_from_base64_utf8 JSON_parse GeoPoint_accepts e req_body w
     = (bad_envelope, w))
  ∧ truthy (message_data (push "")) = false.
Proof.
  cbv zeta. rewrite <- malformed_falsy_data.
  unfold Processor.handler, Writer.handler.
  destruct (malformed req_body); split; try split; try done.
  - destruct (decode _ _ _) as [v|err]; [|done].
    destruct (Processor.processedIncident v) as [out|err']; [|done].
    by destruct (topic_publish _ _ e w) as [[mid|err'] w1].
  - destruct (decode _ _ _) as [v|err]; [|done].
    destruct (Writer.dataToSave GeoPoint_accepts v) as [doc|err']; [|done].
    by destruct (collection_add _ _ e w) as [[id|err'] w1].
Qed.
